(** * grind: the CodeGrinder command-line client (src/grind/main.go)

    A shallow embedding of the request dispatcher [doRequest], the config
    store ([mustLoadConfig], [mustWriteConfig]), the version gate
    ([checkVersion]) and the bootstrap command ([CommandInit]), together with
    the parts of the Go libraries they call: [encoding/json] on structs of
    strings, [strings.HasPrefix] and the comparison of [blang/semver]. *)

From Stdlib Require Import String Ascii NArith ZArith List Bool Lia.
From stdpp Require Import base option gmap strings.

Local Open Scope string_scope.
Local Open Scope N_scope.

(** ** Bytes and UTF-8

    A Go string is a sequence of bytes; [string] (a list of [ascii]) is
    exactly that.  [byte] is the numeric value of a byte. *)

Abbreviation byte := N_of_ascii (only parsing).
Abbreviation chr := ascii_of_N (only parsing).

Definition dquote : ascii := "034"%char.
Definition newline : ascii := "010"%char.
Definition backslash : ascii := "\"%char.

Definition str1 (c : ascii) : string := String c EmptyString.

Definition in_range (lo hi : N) (c : ascii) : bool :=
  (lo <=? byte c) && (byte c <=? hi).

Definition is_cont (c : ascii) : bool := in_range 0x80 0xBF c.

(** Second byte allowed after the lead byte of a three-byte sequence
    (no overlong forms, no surrogates). *)
Definition lead3 (b0 b1 : ascii) : bool :=
  if byte b0 =? 0xE0 then in_range 0xA0 0xBF b1
  else if byte b0 =? 0xED then in_range 0x80 0x9F b1
  else in_range 0xE1 0xEF b0 && is_cont b1.

(** Second byte allowed after the lead byte of a four-byte sequence
    (no overlong forms, nothing above U+10FFFF). *)
Definition lead4 (b0 b1 : ascii) : bool :=
  if byte b0 =? 0xF0 then in_range 0x90 0xBF b1
  else if byte b0 =? 0xF4 then in_range 0x80 0x8F b1
  else in_range 0xF1 0xF3 b0 && is_cont b1.

(** [utf8.DecodeRuneInString], reduced to the width it reports: the number
    of bytes of the well-formed sequence at the head of [s], and [0] where Go
    returns [(RuneError, 1)] (or [(RuneError, 0)] on the empty string). *)
Definition rune_width (s : string) : nat :=
  match s with
  | EmptyString => 0
  | String b0 r0 =>
    if byte b0 <? 0x80 then 1%nat
    else match r0 with
    | EmptyString => 0
    | String b1 r1 =>
      if in_range 0xC2 0xDF b0 then (if is_cont b1 then 2 else 0)%nat
      else match r1 with
      | EmptyString => 0
      | String b2 r2 =>
        if lead3 b0 b1 then (if is_cont b2 then 3 else 0)%nat
        else match r2 with
        | EmptyString => 0
        | String b3 _ =>
          if lead4 b0 b1 && is_cont b2 && is_cont b3 then 4%nat else 0%nat
        end
      end
    end
  end.

(** A string is valid UTF-8 when it splits into well-formed sequences. *)
Fixpoint utf8_valid (s : string) : bool :=
  match s with
  | EmptyString => true
  | String b0 r0 =>
    match rune_width s, r0 with
    | 1%nat, _ => utf8_valid r0
    | 2%nat, String _ r1 => utf8_valid r1
    | 3%nat, String _ (String _ r2) => utf8_valid r2
    | 4%nat, String _ (String _ (String _ r3)) => utf8_valid r3
    | _, _ => false
    end
  end.

(** [utf8.EncodeRune] on a code point. *)
Definition replacement : string :=
  String (chr 0xEF) (String (chr 0xBF) (str1 (chr 0xBD))).

Definition EncodeRune (r : N) : string :=
  if r <? 0x80 then str1 (chr r)
  else if r <? 0x800 then
    String (chr (N.lor 0xC0 (N.shiftr r 6)))
      (str1 (chr (N.lor 0x80 (N.land r 0x3F))))
  else if ((0xD800 <=? r) && (r <=? 0xDFFF)) || (0x10FFFF <? r) then replacement
  else if r <? 0x10000 then
    String (chr (N.lor 0xE0 (N.shiftr r 12)))
      (String (chr (N.lor 0x80 (N.land (N.shiftr r 6) 0x3F)))
        (str1 (chr (N.lor 0x80 (N.land r 0x3F)))))
  else
    String (chr (N.lor 0xF0 (N.shiftr r 18)))
      (String (chr (N.lor 0x80 (N.land (N.shiftr r 12) 0x3F)))
        (String (chr (N.lor 0x80 (N.land (N.shiftr r 6) 0x3F)))
          (str1 (chr (N.lor 0x80 (N.land r 0x3F)))))).

(** ** encoding/json *)

Module Json.

(** *** Encoding a string ([encodeState.string] with HTML escaping on) *)

Definition hex_digit (n : N) : ascii :=
  if n <? 10 then chr (48 + n) else chr (87 + n).

(** An ASCII byte: copied when it is in [htmlSafeSet], else escaped. *)
Definition escape_ascii (b : ascii) : string :=
  if Ascii.eqb b dquote then String backslash (str1 dquote)
  else if Ascii.eqb b backslash then String backslash (str1 backslash)
  else if Ascii.eqb b newline then String backslash (str1 "n"%char)
  else if Ascii.eqb b "013"%char then String backslash (str1 "r"%char)
  else if Ascii.eqb b "009"%char then String backslash (str1 "t"%char)
  else if (byte b <? 0x20) || Ascii.eqb b "<"%char || Ascii.eqb b ">"%char
          || Ascii.eqb b "&"%char then
    String backslash (String "u"%char (String "0"%char (String "0"%char
      (String (hex_digit (N.shiftr (byte b) 4))
        (str1 (hex_digit (N.land (byte b) 0xF)))))))
  else str1 b.

(** U+2028 and U+2029 are E2 80 A8 and E2 80 A9. *)
Definition is_line_sep (b0 b1 b2 : ascii) : bool :=
  (byte b0 =? 0xE2) && (byte b1 =? 0x80) && ((byte b2 =? 0xA8) || (byte b2 =? 0xA9)).

Fixpoint quote_body (s : string) : string :=
  match s with
  | EmptyString => EmptyString
  | String b0 r0 =>
    if byte b0 <? 0x80 then escape_ascii b0 ++ quote_body r0
    else
      match rune_width s, r0 with
      | 2%nat, String b1 r1 => String b0 (String b1 (quote_body r1))
      | 3%nat, String b1 (String b2 r2) =>
        if is_line_sep b0 b1 b2 then
          String backslash (String "u"%char (String "2"%char (String "0"%char
            (String "2"%char (String (hex_digit (N.land (byte b2) 0xF))
              (quote_body r2))))))
        else String b0 (String b1 (String b2 (quote_body r2)))
      | 4%nat, String b1 (String b2 (String b3 r3)) =>
        String b0 (String b1 (String b2 (String b3 (quote_body r3))))
      | _, _ =>
        String backslash (String "u"%char (String "f"%char (String "f"%char
          (String "f"%char (String "d"%char (quote_body r0))))))
      end
  end.

Definition quote (s : string) : string :=
  String dquote (quote_body s ++ str1 dquote).

(** *** Decoding a string (the scanner's string states, then [unquote]) *)

Definition hex_value (c : ascii) : option N :=
  if in_range 48 57 c then Some (byte c - 48)
  else if in_range 97 102 c then Some (byte c - 87)
  else if in_range 65 70 c then Some (byte c - 55)
  else None.

(** [getu4] on the four characters after a backslash and a [u]. *)
Definition getu4 (h1 h2 h3 h4 : ascii) : option N :=
  match hex_value h1, hex_value h2, hex_value h3, hex_value h4 with
  | Some a, Some b, Some c, Some d => Some (((a * 16 + b) * 16 + c) * 16 + d)
  | _, _, _, _ => None
  end.

(** The character a two-byte escape stands for. *)
Definition simple_escape (e : ascii) : option ascii :=
  if Ascii.eqb e dquote then Some dquote
  else if Ascii.eqb e backslash then Some backslash
  else if Ascii.eqb e "/"%char then Some "/"%char
  else if Ascii.eqb e "b"%char then Some "008"%char
  else if Ascii.eqb e "f"%char then Some "012"%char
  else if Ascii.eqb e "n"%char then Some newline
  else if Ascii.eqb e "r"%char then Some "013"%char
  else if Ascii.eqb e "t"%char then Some "009"%char
  else None.

Definition is_surrogate (r : N) : bool := (0xD800 <=? r) && (r <? 0xE000).

(** [utf16.DecodeRune]: [None] stands for the replacement character. *)
Definition utf16_DecodeRune (r1 r2 : N) : option N :=
  if (0xD800 <=? r1) && (r1 <? 0xDC00) && (0xDC00 <=? r2) && (r2 <? 0xE000)
  then Some (N.lor (N.shiftl (r1 - 0xD800) 10) (r2 - 0xDC00) + 0x10000)
  else None.

(** The escape [\uXXXX] at the head of [s], if there is one. *)
Definition peek_u4 (s : string) : option N :=
  match s with
  | String c0 (String c1 (String k1 (String k2 (String k3 (String k4 _))))) =>
    if Ascii.eqb c0 backslash && Ascii.eqb c1 "u"%char then getu4 k1 k2 k3 k4
    else None
  | _ => None
  end.

Definition prepend (p : string) (r : option (string * string)) :
    option (string * string) :=
  match r with
  | Some (d, rest) => Some (p ++ d, rest)
  | None => None
  end.

(** [read_string s] reads a string literal whose opening quote has been
    consumed: the decoded bytes and what follows the closing quote. *)
Fixpoint read_string (s : string) : option (string * string) :=
  match s with
  | EmptyString => None
  | String c r =>
    if Ascii.eqb c dquote then Some (EmptyString, r)
    else if Ascii.eqb c backslash then
      match r with
      | EmptyString => None
      | String e r1 =>
        match simple_escape e with
        | Some d => prepend (str1 d) (read_string r1)
        | None =>
          if Ascii.eqb e "u"%char then
            match r1 with
            | String h1 (String h2 (String h3 (String h4 r5))) =>
              match getu4 h1 h2 h3 h4 with
              | None => None
              | Some rr =>
                if is_surrogate rr then
                  match peek_u4 r5, r5 with
                  | Some rr1,
                    String _ (String _ (String _ (String _ (String _ (String _ r11))))) =>
                    match utf16_DecodeRune rr rr1 with
                    | Some dec => prepend (EncodeRune dec) (read_string r11)
                    | None => prepend replacement (read_string r5)
                    end
                  | _, _ => prepend replacement (read_string r5)
                  end
                else prepend (EncodeRune rr) (read_string r5)
              end
            | _ => None
            end
          else None
        end
      end
    else if byte c <? 0x20 then None
    else if byte c <? 0x80 then prepend (str1 c) (read_string r)
    else
      match rune_width s, r with
      | 2%nat, String b1 r1 => prepend (String c (str1 b1)) (read_string r1)
      | 3%nat, String b1 (String b2 r2) =>
        prepend (String c (String b1 (str1 b2))) (read_string r2)
      | 4%nat, String b1 (String b2 (String b3 r3)) =>
        prepend (String c (String b1 (String b2 (str1 b3)))) (read_string r3)
      | _, _ => prepend replacement (read_string r)
      end
  end.

(** *** Values

    The decoder first checks that its input is well-formed JSON, then walks
    it; the model parses to a tree and walks the tree. *)

#[local] Set Warnings "-register-all".

Inductive JValue : Type :=
| JNull
| JBool (b : bool)
| JNumber (literal : string)
| JString (s : string)
| JArray (elements : list JValue)
| JObject (members : list (string * JValue)).

Inductive parse (A : Type) : Type :=
| Parsed (a : A) (rest : string)
| SyntaxError
| Exhausted.
Arguments Parsed {A} a rest.
Arguments SyntaxError {A}.
Arguments Exhausted {A}.

Definition is_space (c : ascii) : bool :=
  Ascii.eqb c " "%char || Ascii.eqb c "009"%char
  || Ascii.eqb c "013"%char || Ascii.eqb c newline.

Fixpoint skip_space (s : string) : string :=
  match s with
  | String c r => if is_space c then skip_space r else s
  | EmptyString => s
  end.

Definition is_digit (c : ascii) : bool := in_range 48 57 c.

(** The longest run of digits at the head of [s], and the rest. *)
Fixpoint digits (s : string) : string * string :=
  match s with
  | String c r =>
    if is_digit c then let (d, rest) := digits r in (String c d, rest)
    else (EmptyString, s)
  | EmptyString => (EmptyString, s)
  end.

(** A non-empty run of digits. *)
Definition digits1 (s : string) : option (string * string) :=
  match digits s with
  | (EmptyString, _) => None
  | (d, rest) => Some (d, rest)
  end.

(** The number grammar: an optional minus sign; a zero, or a digit from 1
    to 9 and then any digits; optionally a point and one digit or more;
    optionally an exponent mark, a sign and one digit or more. *)
Definition scan_int (s : string) : option (string * string) :=
  match s with
  | String c r =>
    if Ascii.eqb c "0"%char then Some (str1 c, r)
    else if is_digit c then let (d, rest) := digits r in Some (String c d, rest)
    else None
  | EmptyString => None
  end.

Definition scan_frac (s : string) : option (string * string) :=
  match s with
  | String c r =>
    if Ascii.eqb c "."%char then
      match digits1 r with
      | Some (d, rest) => Some (String c d, rest)
      | None => None
      end
    else Some (EmptyString, s)
  | EmptyString => Some (EmptyString, s)
  end.

Definition scan_sign (s : string) : string * string :=
  match s with
  | String c r =>
    if Ascii.eqb c "+"%char || Ascii.eqb c "-"%char then (str1 c, r)
    else (EmptyString, s)
  | EmptyString => (EmptyString, s)
  end.

Definition scan_exp (s : string) : option (string * string) :=
  match s with
  | String c r =>
    if Ascii.eqb c "e"%char || Ascii.eqb c "E"%char then
      let (sg, r1) := scan_sign r in
      match digits1 r1 with
      | Some (d, rest) => Some (String c (sg ++ d), rest)
      | None => None
      end
    else Some (EmptyString, s)
  | EmptyString => Some (EmptyString, s)
  end.

Definition scan_number (s : string) : option (string * string) :=
  let (sg, r0) :=
    match s with
    | String c r => if Ascii.eqb c "-"%char then (str1 c, r) else (EmptyString, s)
    | EmptyString => (EmptyString, s)
    end in
  match scan_int r0 with
  | None => None
  | Some (i, r1) =>
    match scan_frac r1 with
    | None => None
    | Some (f, r2) =>
      match scan_exp r2 with
      | None => None
      | Some (e, r3) => Some (sg ++ i ++ f ++ e, r3)
      end
    end
  end.

(** [strings.HasPrefix] and the rest after a prefix. *)
Fixpoint strip_prefix (p s : string) : option string :=
  match p, s with
  | EmptyString, _ => Some s
  | String a p', String b s' => if Ascii.eqb a b then strip_prefix p' s' else None
  | String _ _, EmptyString => None
  end.

Definition scan_literal (lit : string) (v : JValue) (s : string) : parse JValue :=
  match strip_prefix lit s with
  | Some rest => Parsed v rest
  | None => SyntaxError
  end.

(** [maxNestingDepth] of the scanner. *)
Definition maxNestingDepth : N := 10000.

(** [value fuel depth s] parses the value at the head of [s] (no leading
    space); [members] and [elements] parse what follows an opening brace or
    bracket that is not closed at once.  Every recursive call spends one unit
    of fuel. *)
Fixpoint value (fuel : nat) (depth : N) (s : string) : parse JValue :=
  match fuel with
  | O => Exhausted
  | S fuel' =>
    match s with
    | EmptyString => SyntaxError
    | String c r =>
      if Ascii.eqb c dquote then
        match read_string r with
        | Some (str, rest) => Parsed (JString str) rest
        | None => SyntaxError
        end
      else if Ascii.eqb c "{"%char then
        if maxNestingDepth <? N.succ depth then SyntaxError
        else
          match skip_space r with
          | String c' rest =>
            if Ascii.eqb c' "}"%char then Parsed (JObject nil) rest
            else
              match members fuel' (N.succ depth) (skip_space r) with
              | Parsed m rest' => Parsed (JObject m) rest'
              | SyntaxError => SyntaxError
              | Exhausted => Exhausted
              end
          | EmptyString => SyntaxError
          end
      else if Ascii.eqb c "["%char then
        if maxNestingDepth <? N.succ depth then SyntaxError
        else
          match skip_space r with
          | String c' rest =>
            if Ascii.eqb c' "]"%char then Parsed (JArray nil) rest
            else
              match elements fuel' (N.succ depth) (skip_space r) with
              | Parsed l rest' => Parsed (JArray l) rest'
              | SyntaxError => SyntaxError
              | Exhausted => Exhausted
              end
          | EmptyString => SyntaxError
          end
      else if Ascii.eqb c "t"%char then scan_literal "true" (JBool true) s
      else if Ascii.eqb c "f"%char then scan_literal "false" (JBool false) s
      else if Ascii.eqb c "n"%char then scan_literal "null" JNull s
      else
        match scan_number s with
        | Some (lit, rest) => Parsed (JNumber lit) rest
        | None => SyntaxError
        end
    end
  end
with members (fuel : nat) (depth : N) (s : string) : parse (list (string * JValue)) :=
  match fuel with
  | O => Exhausted
  | S fuel' =>
    match s with
    | EmptyString => SyntaxError
    | String c r =>
      if Ascii.eqb c dquote then
        match read_string r with
        | None => SyntaxError
        | Some (key, r1) =>
          match skip_space r1 with
          | EmptyString => SyntaxError
          | String c1 r2 =>
            if Ascii.eqb c1 ":"%char then
              match value fuel' depth (skip_space r2) with
              | SyntaxError => SyntaxError
              | Exhausted => Exhausted
              | Parsed v r3 =>
                match skip_space r3 with
                | EmptyString => SyntaxError
                | String c3 r4 =>
                  if Ascii.eqb c3 "}"%char then Parsed ((key, v) :: nil) r4
                  else if Ascii.eqb c3 ","%char then
                    match members fuel' depth (skip_space r4) with
                    | Parsed m rest => Parsed ((key, v) :: m) rest
                    | SyntaxError => SyntaxError
                    | Exhausted => Exhausted
                    end
                  else SyntaxError
                end
              end
            else SyntaxError
          end
        end
      else SyntaxError
    end
  end
with elements (fuel : nat) (depth : N) (s : string) : parse (list JValue) :=
  match fuel with
  | O => Exhausted
  | S fuel' =>
    match value fuel' depth s with
    | SyntaxError => SyntaxError
    | Exhausted => Exhausted
    | Parsed v r1 =>
      match skip_space r1 with
      | EmptyString => SyntaxError
      | String c r2 =>
        if Ascii.eqb c "]"%char then Parsed (v :: nil) r2
        else if Ascii.eqb c ","%char then
          match elements fuel' depth (skip_space r2) with
          | Parsed l rest => Parsed (v :: l) rest
          | SyntaxError => SyntaxError
          | Exhausted => Exhausted
          end
        else SyntaxError
      end
    end
  end.

(** Fuel that is always enough: no call chain is longer than the input. *)
Definition fuel_for (s : string) : nat := S (S (String.length s)).

(** The scalar or container at the head of the input, leading space
    skipped. *)
Definition first_value (s : string) : parse JValue :=
  value (fuel_for s) 0 (skip_space s).

(** *** Decoding into a struct of string fields

    A key selects the field whose name it equals, else the first field whose
    name it matches under [foldName]: ASCII letters without case, the long s
    (U+017F) as [S] and the Kelvin sign (U+212A) as [K]. *)

Fixpoint foldName (s : string) : string :=
  match s with
  | EmptyString => EmptyString
  | String c r =>
    if in_range 97 122 c then String (chr (byte c - 32)) (foldName r)
    else
      match r with
      | EmptyString => String c (foldName r)
      | String c1 r1 =>
        if (byte c =? 0xC5) && (byte c1 =? 0xBF) then String "S"%char (foldName r1)
        else
          match r1 with
          | EmptyString => String c (foldName r)
          | String c2 r2 =>
            if (byte c =? 0xE2) && (byte c1 =? 0x84) && (byte c2 =? 0xAA)
            then String "K"%char (foldName r2)
            else String c (foldName r)
          end
      end
  end.

Definition field_for (names : list string) (key : string) : option string :=
  match List.find (String.eqb key) names with
  | Some n => Some n
  | None => List.find (fun n => String.eqb (foldName n) (foldName key)) names
  end.

Section StringStruct.
Context {A : Type}.
(** The JSON names of the exported fields, and the assignment to one. *)
Variable names : list string.
Variable set : string -> string -> A -> A.

(** The members of an object, in order: a string is stored, a null leaves
    the field alone, a key that matches no field is skipped, and any other
    value for a field is an [UnmarshalTypeError] (reported once the whole
    object has been read, so the call fails). *)
Fixpoint assign (m : list (string * JValue)) (a : A) : option A :=
  match m with
  | nil => Some a
  | (key, v) :: m' =>
    match field_for names key with
    | None => assign m' a
    | Some n =>
      match v with
      | JString str => assign m' (set n str a)
      | JNull => assign m' a
      | _ => None
      end
    end
  end.

Definition store (v : JValue) (a : A) : option A :=
  match v with
  | JNull => Some a
  | JObject m => assign m a
  | _ => None
  end.

(** [json.Unmarshal]: the whole input is one value. *)
Definition Unmarshal_struct (raw : string) (a : A) : option A :=
  match first_value raw with
  | Parsed v rest =>
    match skip_space rest with
    | EmptyString => store v a
    | String _ _ => None
    end
  | _ => None
  end.

(** [Decoder.Decode] on a fresh decoder: the first value of the stream.  An
    object or array ends at its closing character; any other value ends at
    the next byte, which must be white space or the end of the input. *)
Definition Decode_struct (body : string) (a : A) : option A :=
  match first_value body with
  | Parsed v rest =>
    match v, rest with
    | JObject _, _ | JArray _, _ => store v a
    | _, EmptyString => store v a
    | _, String c _ => if is_space c then store v a else None
    end
  | _ => None
  end.
End StringStruct.

(** *** Encoding a struct of string fields ([MarshalIndent] with an empty
    prefix and an indent of four spaces) *)

Fixpoint members_text (fields : list (string * string)) : string :=
  match fields with
  | nil => EmptyString
  | (name, v) :: rest =>
    "    " ++ quote name ++ ": " ++ quote v
    ++ match rest with
       | nil => str1 newline
       | _ :: _ => "," ++ str1 newline ++ members_text rest
       end
  end.

Definition MarshalIndent_struct (fields : list (string * string)) : string :=
  match fields with
  | nil => "{}"
  | _ :: _ => "{" ++ str1 newline ++ members_text fields ++ "}"
  end.

End Json.

(** An [interface{}] handed to [encoding/json]: what the program asks of an
    upload or a download target.  [None] is the library's [err != nil]. *)
Class JsonCodec (A : Type) := {
  MarshalIndent : A -> option string;
  Unmarshal : string -> A -> option A;
  Decode : string -> A -> option A
}.

(** ** blang/semver

    [Parse] and [Compare] of the version library, which [checkVersion] calls
    through [MustParse] and [GT]. *)

Module semver.

Record PRVersion := {
  VersionStr : string;
  VersionNum : N;
  IsNum : bool
}.

Record Version := {
  Major : N;
  Minor : N;
  Patch : N;
  Pre : list PRVersion;
  Build : list string
}.

Definition is_number (c : ascii) : bool := in_range 48 57 c.
Definition is_alphanum (c : ascii) : bool :=
  in_range 97 122 c || in_range 65 90 c || Ascii.eqb c "-"%char || is_number c.

Fixpoint containsOnly (s : string) (set : ascii -> bool) : bool :=
  match s with
  | EmptyString => true
  | String c r => set c && containsOnly r set
  end.

Definition hasLeadingZeroes (s : string) : bool :=
  match s with
  | String c (String _ _) => Ascii.eqb c "0"%char
  | _ => false
  end.

(** [strconv.ParseUint(s, 10, 64)]. *)
Fixpoint ParseUint_from (acc : N) (s : string) : option N :=
  match s with
  | EmptyString => Some acc
  | String c r =>
    if is_number c then
      let acc' := acc * 10 + (byte c - 48) in
      if acc' <? 2 ^ 64 then ParseUint_from acc' r else None
    else None
  end.

Definition ParseUint (s : string) : option N :=
  match s with
  | EmptyString => None
  | _ => ParseUint_from 0 s
  end.

Definition parse_number (s : string) : option N :=
  if negb (containsOnly s is_number) then None
  else if hasLeadingZeroes s then None
  else ParseUint s.

(** [strings.Split(s, sep)] for a one-byte separator. *)
Fixpoint Split (s : string) (sep : ascii) : list string :=
  match s with
  | EmptyString => EmptyString :: nil
  | String c r =>
    if Ascii.eqb c sep then EmptyString :: Split r sep
    else
      match Split r sep with
      | p :: ps => String c p :: ps
      | nil => str1 c :: nil
      end
  end.

(** What is before and after the first [sep], if there is one. *)
Fixpoint cut (s : string) (sep : ascii) : option (string * string) :=
  match s with
  | EmptyString => None
  | String c r =>
    if Ascii.eqb c sep then Some (EmptyString, r)
    else
      match cut r sep with
      | Some (a, b) => Some (String c a, b)
      | None => None
      end
  end.

Definition NewPRVersion (s : string) : option PRVersion :=
  match s with
  | EmptyString => None
  | _ =>
    if containsOnly s is_number then
      if hasLeadingZeroes s then None
      else
        match ParseUint s with
        | Some n => Some {| VersionStr := EmptyString; VersionNum := n; IsNum := true |}
        | None => None
        end
    else if containsOnly s is_alphanum then
      Some {| VersionStr := s; VersionNum := 0; IsNum := false |}
    else None
  end.

Fixpoint parse_all {A : Type} (f : string -> option A) (l : list string) :
    option (list A) :=
  match l with
  | nil => Some nil
  | x :: l' =>
    match f x, parse_all f l' with
    | Some a, Some r => Some (a :: r)
    | _, _ => None
    end
  end.

Definition build_part (s : string) : option string :=
  match s with
  | EmptyString => None
  | _ => if containsOnly s is_alphanum then Some s else None
  end.

Definition Parse (s : string) : option Version :=
  match cut s "."%char with
  | None => None
  | Some (p0, r0) =>
    match cut r0 "."%char with
    | None => None
    | Some (p1, p2) =>
      match parse_number p0, parse_number p1 with
      | Some major, Some minor =>
        let (patchStr1, build) :=
          match cut p2 "+"%char with
          | Some (a, b) => (a, Split b "."%char)
          | None => (p2, nil)
          end in
        let (patchStr, prerelease) :=
          match cut patchStr1 "-"%char with
          | Some (a, b) => (a, Split b "."%char)
          | None => (patchStr1, nil)
          end in
        match parse_number patchStr, parse_all NewPRVersion prerelease,
              parse_all build_part build with
        | Some patch, Some pre, Some bld =>
          Some {| Major := major; Minor := minor; Patch := patch;
                  Pre := pre; Build := bld |}
        | _, _, _ => None
        end
      | _, _ => None
      end
    end
  end.

Definition cmpN (a b : N) : Z :=
  if a =? b then 0%Z else if b <? a then 1%Z else (-1)%Z.

Definition PRVersion_Compare (v o : PRVersion) : Z :=
  if IsNum v && negb (IsNum o) then (-1)%Z
  else if negb (IsNum v) && IsNum o then 1%Z
  else if IsNum v && IsNum o then cmpN (VersionNum v) (VersionNum o)
  else
    match String.compare (VersionStr v) (VersionStr o) with
    | Eq => 0%Z
    | Gt => 1%Z
    | Lt => (-1)%Z
    end.

(** The loop over the common positions of two non-empty prerelease lists,
    and the comparison of the lengths after it. *)
Fixpoint Pre_Compare (v o : list PRVersion) : Z :=
  match v, o with
  | nil, nil => 0%Z
  | nil, _ :: _ => (-1)%Z
  | _ :: _, nil => 1%Z
  | x :: v', y :: o' =>
    let comp := PRVersion_Compare x y in
    if (comp =? 0)%Z then Pre_Compare v' o'
    else if (comp =? 1)%Z then 1%Z
    else (-1)%Z
  end.

Definition Compare (v o : Version) : Z :=
  if negb (Major v =? Major o) then cmpN (Major v) (Major o)
  else if negb (Minor v =? Minor o) then cmpN (Minor v) (Minor o)
  else if negb (Patch v =? Patch o) then cmpN (Patch v) (Patch o)
  else
    match Pre v, Pre o with
    | nil, nil => 0%Z
    | nil, _ :: _ => 1%Z
    | _ :: _, nil => (-1)%Z
    | _, _ => Pre_Compare (Pre v) (Pre o)
    end.

Definition GT (v o : Version) : bool := (Compare v o =? 1)%Z.
Definition LTE (v o : Version) : bool := (Compare v o <=? 0)%Z.

End semver.

(** ** The process and what surrounds it *)

(** The package-level variable [Config]. Only [Host] and [Cookie] are
    exported, so only they are written to and read from the config file. *)
Record ConfigT := {
  Host : string;
  Cookie : string;
  apiReport : bool;
  apiDump : bool
}.

(** The value of [Config] when the process starts. *)
Definition Config_zero : ConfigT :=
  {| Host := EmptyString; Cookie := EmptyString; apiReport := false; apiDump := false |}.

Definition Config_names : list string := "host" :: "cookie" :: nil.

Definition Config_set (name v : string) (c : ConfigT) : ConfigT :=
  if String.eqb name "host" then
    {| Host := v; Cookie := Cookie c; apiReport := apiReport c; apiDump := apiDump c |}
  else if String.eqb name "cookie" then
    {| Host := Host c; Cookie := v; apiReport := apiReport c; apiDump := apiDump c |}
  else c.

(** [json.MarshalIndent(&Config, "", "    ")]. *)
Definition Config_MarshalIndent (c : ConfigT) : string :=
  Json.MarshalIndent_struct (("host", Host c) :: ("cookie", Cookie c) :: nil).

#[export] Instance Config_codec : JsonCodec ConfigT := {|
  MarshalIndent c := Some (Config_MarshalIndent c);
  Unmarshal := Json.Unmarshal_struct Config_names Config_set;
  Decode := Json.Decode_struct Config_names Config_set
|}.

(** [types.Version]: the three fields [checkVersion] reads. *)
Record types_Version := {
  Version : string;
  GrindVersionRequired : string;
  GrindVersionRecommended : string
}.

Definition Version_zero : types_Version :=
  {| Version := EmptyString; GrindVersionRequired := EmptyString;
     GrindVersionRecommended := EmptyString |}.

(** An HTTP request as [doRequest] builds it, and the part of a response it
    looks at. *)
Record Request := {
  Method : string;
  URL : string;
  Query : gmap string string;
  Header : gmap string (list string);
  ReqBody : option string
}.

Record Response := {
  StatusCode : Z;
  Status : string;
  Body : string
}.

(** What one call of [fmt.Scanln(&cookie)] delivers. *)
Record Scanned := {
  token : string;
  count : Z;
  scan_err : bool
}.

(** A [cobra.Command], as far as its flags go: the [Value.String()] of each
    flag that is defined. *)
Record Command := { Flags : gmap string string }.

(** Everything the program reads or changes.  [sent], [stdout] and [log]
    grow at the head (latest first).  [server] answers a request given the
    requests sent before it, [None] being a transport error; a file absent
    from [files] cannot be read; [write_denied] tells where [WriteFile]
    fails. *)
Record World := {
  Config : ConfigT;
  environ : gmap string string;
  files : gmap string string;
  write_denied : string -> bool;
  server : list Request -> Request -> option Response;
  sent : list Request;
  stdin : list Scanned;
  stdout : list string;
  log : list string
}.

Definition with_Config (c : ConfigT) (w : World) : World :=
  {| Config := c; environ := environ w; files := files w;
     write_denied := write_denied w; server := server w; sent := sent w;
     stdin := stdin w; stdout := stdout w; log := log w |}.

Definition with_files (f : gmap string string) (w : World) : World :=
  {| Config := Config w; environ := environ w; files := f;
     write_denied := write_denied w; server := server w; sent := sent w;
     stdin := stdin w; stdout := stdout w; log := log w |}.

Definition with_sent (l : list Request) (w : World) : World :=
  {| Config := Config w; environ := environ w; files := files w;
     write_denied := write_denied w; server := server w; sent := l;
     stdin := stdin w; stdout := stdout w; log := log w |}.

Definition with_stdin (l : list Scanned) (w : World) : World :=
  {| Config := Config w; environ := environ w; files := files w;
     write_denied := write_denied w; server := server w; sent := sent w;
     stdin := l; stdout := stdout w; log := log w |}.

Definition with_stdout (l : list string) (w : World) : World :=
  {| Config := Config w; environ := environ w; files := files w;
     write_denied := write_denied w; server := server w; sent := sent w;
     stdin := stdin w; stdout := l; log := log w |}.

Definition with_log (l : list string) (w : World) : World :=
  {| Config := Config w; environ := environ w; files := files w;
     write_denied := write_denied w; server := server w; sent := sent w;
     stdin := stdin w; stdout := stdout w; log := l |}.

(** How a run ends: it returns, or the process exits through [log.Fatalf]
    ([os.Exit(1)]), or it dies of a panic ([log.Panicf], [MustParse], a nil
    dereference). *)
Inductive Outcome (A : Type) : Type :=
| Return (a : A) (w : World)
| Fatal (w : World)
| Panic (w : World).
Arguments Return {A} a w.
Arguments Fatal {A} w.
Arguments Panic {A} w.

Definition M (A : Type) : Type := World -> Outcome A.

Definition ret {A : Type} (a : A) : M A := fun w => Return a w.

Definition bind {A B : Type} (m : M A) (k : A -> M B) : M B :=
  fun w =>
    match m w with
    | Return a w' => k a w'
    | Fatal w' => Fatal w'
    | Panic w' => Panic w'
    end.

Declare Scope grind_scope.
Delimit Scope grind_scope with grind.
Notation "'let*' x ':=' m 'in' k" := (bind m (fun x => k))
  (at level 10, x name, m at level 100, k at level 200) : grind_scope.
Notation "m '>>' k" := (bind m (fun _ => k))
  (at level 100, k at level 200, right associativity) : grind_scope.
Local Open Scope grind_scope.

Definition final_world {A : Type} (o : Outcome A) : World :=
  match o with
  | Return _ w | Fatal w | Panic w => w
  end.

Definition aborts {A : Type} (o : Outcome A) : bool :=
  match o with
  | Return _ _ => false
  | _ => true
  end.

(** *** The primitives *)

Definition getConfig : M ConfigT := fun w => Return (Config w) w.
Definition setConfig (c : ConfigT) : M unit := fun w => Return tt (with_Config c w).

(** [log.Printf], [log.Fatalf], [log.Panicf]; a [%v] that prints a library's
    error value is left in the text. *)
Definition Printf (msg : string) : M unit :=
  fun w => Return tt (with_log (msg :: log w) w).
Definition Fatalf {A : Type} (msg : string) : M A :=
  fun w => Fatal (with_log (msg :: log w) w).
Definition Panicf {A : Type} (msg : string) : M A :=
  fun w => Panic (with_log (msg :: log w) w).
Definition panic {A : Type} : M A := fun w => Panic w.

Definition Println (msg : string) : M unit :=
  fun w => Return tt (with_stdout (msg :: stdout w) w).

Definition when (b : bool) (m : M unit) : M unit := if b then m else ret tt.

(** [os.Getenv]: the empty string when the variable is not set. *)
Definition Getenv (name : string) : M string :=
  fun w => Return (default EmptyString (environ w !! name)) w.

Definition ReadFile (name : string) : M (option string) :=
  fun w => Return (files w !! name) w.

(** [ioutil.WriteFile]: [false] is [err != nil]. *)
Definition WriteFile (name data : string) : M bool :=
  fun w =>
    if write_denied w name then Return false w
    else Return true (with_files (<[name := data]> (files w)) w).

(** [http.DefaultClient.Do]: the request goes out, the server answers. *)
Definition Do (req : Request) : M (option Response) :=
  fun w => Return (server w (sent w) req) (with_sent (req :: sent w) w).

(** [fmt.Scanln]: at the end of the input, an error and nothing read. *)
Definition Scanln : M Scanned :=
  fun w =>
    match stdin w with
    | sc :: rest => Return sc (with_stdin rest w)
    | nil => Return {| token := EmptyString; count := 0; scan_err := true |} w
    end.

Definition HasPrefix (s p : string) : bool := String.prefix p s.

(** A nil [interface{}] has no value to encode or to fill. *)
#[export] Instance nil_codec : JsonCodec Empty_set := {|
  MarshalIndent := fun e : Empty_set => match e with end;
  Unmarshal := fun _ (e : Empty_set) => match e with end;
  Decode := fun _ (e : Empty_set) => match e with end
|}.

Definition defaultHost : string := "dorking.cs.dixie.edu".
Definition perUserDotFile : string := ".codegrinderrc".
Definition perProblemSetDotFile : string := ".grind".

Definition StatusOK : Z := 200.
Definition StatusNotFound : Z := 404.

(** ** The program *)

Section Grind.

(** Library functions the program calls and whose definition does not
    matter here: whether [http.NewRequest] accepts a URL, how
    [url.Values.Encode] writes the query, and [filepath.Join]. *)
Variable url_ok : string -> bool.
Variable QueryEncode : gmap string string -> string.
Variable Join : string -> string -> string.

(** From the package [types], which is not part of this file: the name of
    the session cookie, the version of this client, and how a
    [types.Version] and a [types.User] travel as JSON. *)
Variable CookieName : string.
Variable CurrentVersion : types_Version.
Context {Version_codec : JsonCodec types_Version}.
Variable User : Type.
Variable User_zero : User.
Variable Name : User -> string.
Context {User_codec : JsonCodec User}.

Definition is_method (method : string) : bool :=
  String.eqb method "GET" || String.eqb method "POST"
  || String.eqb method "PUT" || String.eqb method "DELETE".

Definition carries_body (method : string) : bool :=
  String.eqb method "POST" || String.eqb method "PUT".

(** [req.URL] as [log.Printf] shows it. *)
Definition URL_String (url : string) (params : gmap string string) : string :=
  if decide (params = ∅) then url else url ++ "?" ++ QueryEncode params.

(** Lines 187-228: the two checks, the request and its headers, the
    payload.  A nil [params] is the empty map: the code treats them
    alike. *)
Definition doRequest_build {U : Type} `{JsonCodec U}
    (path : string) (params : gmap string string) (method : string)
    (upload : option U) : M Request :=
  when (negb (HasPrefix path "/"))
    (Panicf "doRequest path must start with /") >>
  when (negb (is_method method))
    (Panicf "doRequest only recognizes GET, POST, PUT, and DELETE methods") >>
  let* c := getConfig in
  let url := "https://" ++ Host c ++ "/v2" ++ path in
  when (negb (url_ok url)) (Fatalf "error creating http request: %v") >>
  when (apiReport c) (Printf (method ++ " " ++ URL_String url params)) >>
  let header : gmap string (list string) :=
    <["Cookie" := Cookie c :: nil]> (<["Accept" := "application/json" :: nil]> ∅) in
  match upload with
  | Some u =>
    if carries_body method then
      match MarshalIndent u with
      | None => Fatalf "doRequest: JSON error encoding object to upload: %v"
      | Some payload =>
        when (apiDump c) (Printf ("Request data: " ++ payload)) >>
        ret {| Method := method; URL := url; Query := params;
               Header := <["Content-Type" := "application/json" :: nil]> header;
               ReqBody := Some payload |}
      end
    else
      ret {| Method := method; URL := url; Query := params;
             Header := header; ReqBody := None |}
  | None =>
    ret {| Method := method; URL := url; Query := params;
           Header := header; ReqBody := None |}
  end.

(** Lines 235-261: what is made of the response. *)
Definition doRequest_result {D : Type} `{JsonCodec D}
    (url : string) (download : option D) (notfoundokay : bool)
    (resp : Response) : M (bool * option D) :=
  if notfoundokay && (StatusCode resp =? StatusNotFound)%Z then ret (false, download)
  else
    when (negb (StatusCode resp =? StatusOK)%Z)
      (Printf ("unexpected status from " ++ url ++ ": " ++ Status resp) >>
       Printf (Body resp) >>
       Fatalf "giving up") >>
    match download with
    | Some d =>
      match Decode (Body resp) d with
      | None => Fatalf "failed to parse result object from server: %v"
      | Some d' =>
        let* c := getConfig in
        when (apiDump c)
          (match MarshalIndent d' with
           | None => Fatalf "doRequest: JSON error encoding downloaded object: %v"
           | Some raw => Printf ("Response data: " ++ raw)
           end) >>
        ret (true, Some d')
      end
    | None => ret (false, None)
    end.

(** [doRequest] returns its boolean and the download target as the call
    leaves it. *)
Definition doRequest {U D : Type} `{JsonCodec U} `{JsonCodec D}
    (path : string) (params : gmap string string) (method : string)
    (upload : option U) (download : option D) (notfoundokay : bool) :
    M (bool * option D) :=
  let* req := doRequest_build path params method upload in
  let* resp := Do req in
  match resp with
  | None =>
    let* c := getConfig in
    Fatalf ("error connecting to " ++ Host c ++ ": %v")
  | Some resp => doRequest_result (URL req) download notfoundokay resp
  end.

Definition mustGetObject {D : Type} `{JsonCodec D}
    (path : string) (params : gmap string string) (download : option D) :
    M (option D) :=
  let* r := doRequest path params "GET" (@None Empty_set) download false in
  ret (snd r).

Definition getObject {D : Type} `{JsonCodec D}
    (path : string) (params : gmap string string) (download : option D) :
    M (bool * option D) :=
  doRequest path params "GET" (@None Empty_set) download true.

Definition mustPostObject {U D : Type} `{JsonCodec U} `{JsonCodec D}
    (path : string) (params : gmap string string)
    (upload : option U) (download : option D) : M (option D) :=
  let* r := doRequest path params "POST" upload download false in
  ret (snd r).

Definition mustPutObject {U D : Type} `{JsonCodec U} `{JsonCodec D}
    (path : string) (params : gmap string string)
    (upload : option U) (download : option D) : M (option D) :=
  let* r := doRequest path params "PUT" upload download false in
  ret (snd r).

(** [semver.MustParse] panics on a string that is no version. *)
Definition MustParse (s : string) : M semver.Version :=
  match semver.Parse s with
  | Some v => ret v
  | None => panic
  end.

(** Lines 322-332 of [checkVersion]: what is made of the descriptor. *)
Definition checkVersion_compare (server : types_Version) : M unit :=
  let* grindCurrent := MustParse (Version CurrentVersion) in
  let* grindRequired := MustParse (GrindVersionRequired server) in
  when (semver.GT grindRequired grindCurrent)
    (Printf ("this is grind version " ++ Version CurrentVersion
             ++ ", but the server requires " ++ GrindVersionRequired server
             ++ " or higher") >>
     Fatalf "  you must upgrade to continue") >>
  let* grindRecommended := MustParse (GrindVersionRecommended server) in
  when (semver.GT grindRecommended grindCurrent)
    (Printf ("this is grind version " ++ Version CurrentVersion
             ++ ", but the server recommends " ++ GrindVersionRecommended server
             ++ " or higher") >>
     Printf "  please upgrade as soon as possible").

Definition checkVersion : M unit :=
  let* server := mustGetObject "/version" ∅ (Some Version_zero) in
  checkVersion_compare (default Version_zero server).

(** Lines 265-272 and 292-299: where the config file is. *)
Definition configFile : M string :=
  let* home := Getenv "HOME" in
  let* home := if String.eqb home EmptyString then Getenv "USERPROFILE" else ret home in
  if String.eqb home EmptyString then
    Fatalf "Unable to locate home directory, giving up"
  else ret (Join home perUserDotFile).

(** [cmd.Flag(name).Value.String() == "true"]; a flag that is not defined
    is a nil pointer. *)
Definition flag_is_true (cmd : Command) (name : string) : M bool :=
  match Flags cmd !! name with
  | Some v => ret (String.eqb v "true")
  | None => panic
  end.

Definition mustLoadConfig (cmd : Command) : M unit :=
  let* file := configFile in
  let* raw := ReadFile file in
  match raw with
  | None =>
    Fatalf ("Unable to load config file; try running " ++ str1 dquote
            ++ "grind init" ++ str1 dquote)
  | Some raw =>
    let* c := getConfig in
    match Unmarshal raw c with
    | None =>
      Printf ("failed to parse " ++ file ++ ": %v") >>
      Fatalf ("you may wish to try deleting the file and running "
              ++ str1 dquote ++ "grind init" ++ str1 dquote ++ " again")
    | Some c' => setConfig c'
    end
  end >>
  let* api := flag_is_true cmd "api" in
  when api
    (let* c := getConfig in
     setConfig {| Host := Host c; Cookie := Cookie c;
                  apiReport := true; apiDump := apiDump c |}) >>
  let* dump := flag_is_true cmd "api-dump" in
  when dump
    (let* c := getConfig in
     setConfig {| Host := Host c; Cookie := Cookie c;
                  apiReport := true; apiDump := true |}) >>
  checkVersion.

Definition mustWriteConfig : M unit :=
  let* file := configFile in
  let* c := getConfig in
  match MarshalIndent c with
  | None => Fatalf "JSON error encoding cookie file: %v"
  | Some raw =>
    let raw := raw ++ str1 newline in
    let* ok := WriteFile file raw in
    when (negb ok) (Fatalf ("error writing " ++ file ++ ": %v"))
  end.

Definition plural (n : Z) : string :=
  if (n =? 1)%Z then EmptyString else "s".

Definition prompt (loadedHost : string) : string :=
  "Please follow these steps:" ++ str1 newline ++ str1 newline
  ++ "1.  Use Canvas to load a CodeGrinder window" ++ str1 newline
  ++ "2.  Open a new tab in your browser and copy this URL into the address bar:"
  ++ str1 newline ++ str1 newline
  ++ "    https://" ++ loadedHost ++ "/v2/users/me/cookie" ++ str1 newline ++ str1 newline
  ++ "3.  The browser will display something of the form: " ++ CookieName ++ "=..."
  ++ str1 newline
  ++ "4.  Copy that entire string to the clipboard and paste it below."
  ++ str1 newline ++ str1 newline
  ++ "Paste here: ".

(** Lines 141-151 of [CommandInit]: the cookie is read and checked. *)
Definition read_cookie : M string :=
  let* sc := Scanln in
  when (scan_err sc)
    (Fatalf "error encountered while reading the cookie you pasted: %v") >>
  when (negb (count sc =? 1)%Z)
    (Fatalf "failed to read the cookie you pasted; please try again") >>
  when (negb (HasPrefix (token sc) (CookieName ++ "=")))
    (Fatalf ("the cookie must start with " ++ CookieName
             ++ "=; perhaps you copied the wrong thing?")) >>
  ret (token sc).

Definition CommandInit (cmd : Command) : M unit :=
  mustLoadConfig cmd >>
  let* c := getConfig in
  let loadedHost := if String.eqb (Host c) EmptyString then defaultHost else Host c in
  Println (prompt loadedHost) >>
  let* cookie := read_cookie in
  let* c := getConfig in
  setConfig {| Host := loadedHost; Cookie := cookie;
               apiReport := apiReport c; apiDump := apiDump c |} >>
  checkVersion >>
  let* user := mustGetObject "/users/me" ∅ (Some User_zero) in
  mustWriteConfig >>
  Printf ("cookie verified and saved: welcome " ++ Name (default User_zero user)).

(** [CommandInit] up to the fetch of the user record (lines 121-162), and
    from there on (lines 165-167). *)
Definition CommandInit_verify (cmd : Command) : M (option User) :=
  mustLoadConfig cmd >>
  let* c := getConfig in
  let loadedHost := if String.eqb (Host c) EmptyString then defaultHost else Host c in
  Println (prompt loadedHost) >>
  let* cookie := read_cookie in
  let* c := getConfig in
  setConfig {| Host := loadedHost; Cookie := cookie;
               apiReport := apiReport c; apiDump := apiDump c |} >>
  checkVersion >>
  mustGetObject "/users/me" ∅ (Some User_zero).

Definition CommandInit_save (user : option User) : M unit :=
  mustWriteConfig >>
  Printf ("cookie verified and saved: welcome " ++ Name (default User_zero user)).

End Grind.

(** ** What the claims speak of *)

(** [m] keeps [P]: however the run ends, [P] holds after it if it held
    before. *)
Definition preserves {A : Type} (P : World -> Prop) (m : M A) : Prop :=
  forall w, P w -> P (final_world (m w)).

(** A property of the world that does not look at the log, at what was
    printed, at what is left to read, at what was sent, or at [Config]. *)
Definition log_blind (P : World -> Prop) : Prop :=
  forall l w, P w -> P (with_log l w).
Definition stdout_blind (P : World -> Prop) : Prop :=
  forall l w, P w -> P (with_stdout l w).
Definition stdin_blind (P : World -> Prop) : Prop :=
  forall l w, P w -> P (with_stdin l w).
Definition sent_blind (P : World -> Prop) : Prop :=
  forall l w, P w -> P (with_sent l w).
Definition Config_blind (P : World -> Prop) : Prop :=
  forall c w, P w -> P (with_Config c w).

(** Two outcomes that differ in nothing but what was logged and the two
    diagnostic flags. *)
Definition alike (w1 w2 : World) : Prop :=
  Host (Config w1) = Host (Config w2) /\ Cookie (Config w1) = Cookie (Config w2)
  /\ environ w1 = environ w2 /\ files w1 = files w2
  /\ sent w1 = sent w2 /\ stdin w1 = stdin w2 /\ stdout w1 = stdout w2.

Definition same_course {A : Type} (o1 o2 : Outcome A) : Prop :=
  match o1, o2 with
  | Return a w1, Return b w2 => a = b /\ alike w1 w2
  | Fatal w1, Fatal w2 => alike w1 w2
  | Panic w1, Panic w2 => alike w1 w2
  | _, _ => False
  end.

Definition with_flags (report dump : bool) (w : World) : World :=
  with_Config {| Host := Host (Config w); Cookie := Cookie (Config w);
                 apiReport := report; apiDump := dump |} w.

(** The dump flag is never set without the report flag. *)
Definition flags_ok (c : ConfigT) : Prop := apiDump c = true -> apiReport c = true.

(** A config that the config file can hold: [encoding/json] writes valid
    UTF-8 only, and replaces any other byte. *)
Definition well_formed (c : ConfigT) : Prop :=
  utf8_valid (Host c) = true /\ utf8_valid (Cookie c) = true.

(** The message of [mustLoadConfig] when the file cannot be read. *)
Definition missing_config : string :=
  "Unable to load config file; try running " ++ str1 dquote
  ++ "grind init" ++ str1 dquote.

(** A member as [MarshalIndent] writes it. *)
Definition member_text (k v rest : string) : string :=
  Json.quote k ++ String ":"%char (String " "%char (Json.quote v ++ rest)).

(** The config file as [MarshalIndent] writes it, followed by [tail]. *)
Definition Config_text (host cookie tail : string) : string :=
  String "{"%char (String newline ("    "
    ++ member_text "host" host
         (String ","%char (String newline ("    "
            ++ member_text "cookie" cookie
                 (String newline (String "}"%char tail))))))).

(** ** What the further properties speak of *)

(** [w'] is [w] but for what was sent and what was logged. *)
Definition traffic_only (w w' : World) : Prop :=
  Config w' = Config w /\ environ w' = environ w /\ files w' = files w
  /\ write_denied w' = write_denied w /\ server w' = server w
  /\ stdin w' = stdin w /\ stdout w' = stdout w.

(** A GET of [path] with the host and the cookie of [c]. *)
Definition is_get (c : ConfigT) (path : string) (req : Request) : Prop :=
  Method req = "GET"
  /\ URL req = "https://" ++ Host c ++ "/v2" ++ path
  /\ Header req !! "Cookie" = Some (Cookie c :: nil)
  /\ ReqBody req = None.

(** The config as [mustLoadConfig] leaves it: host and cookie of [c'], the
    flags of [c] with those of the command line turned on. *)
Definition merge_flags (c c' : ConfigT) (api dump : string) : ConfigT :=
  {| Host := Host c'; Cookie := Cookie c';
     apiReport := apiReport c || String.eqb api "true" || String.eqb dump "true";
     apiDump := apiDump c || String.eqb dump "true" |}.

(** [loadedHost] of [CommandInit] (lines 123-127). *)
Definition loaded_host (c : ConfigT) : string :=
  if String.eqb (Host c) EmptyString then defaultHost else Host c.

(** ** A sample setting

    Instances for what the program takes from its libraries and from the
    package [types], to run it on examples. *)

Module Sample.

Definition url_ok (url : string) : bool := true.

Definition QueryEncode (params : gmap string string) : string :=
  List.fold_right
    (fun kv acc => fst kv ++ "=" ++ snd kv ++ "&" ++ acc) EmptyString
    (map_to_list params).

Definition Join (dir name : string) : string := dir ++ "/" ++ name.

Definition CookieName : string := "codegrinder".

Definition CurrentVersion : types_Version :=
  {| Version := "2.1.0"; GrindVersionRequired := "2.1.0";
     GrindVersionRecommended := "2.1.0" |}.

Definition Version_names : list string :=
  "version" :: "grindVersionRequired" :: "grindVersionRecommended" :: nil.

Definition Version_set (name v : string) (x : types_Version) : types_Version :=
  if String.eqb name "version" then
    {| Version := v; GrindVersionRequired := GrindVersionRequired x;
       GrindVersionRecommended := GrindVersionRecommended x |}
  else if String.eqb name "grindVersionRequired" then
    {| Version := Version x; GrindVersionRequired := v;
       GrindVersionRecommended := GrindVersionRecommended x |}
  else if String.eqb name "grindVersionRecommended" then
    {| Version := Version x; GrindVersionRequired := GrindVersionRequired x;
       GrindVersionRecommended := v |}
  else x.

Definition Version_codec : JsonCodec types_Version := {|
  MarshalIndent x := Some (Json.MarshalIndent_struct
    (("version", Version x) :: ("grindVersionRequired", GrindVersionRequired x)
     :: ("grindVersionRecommended", GrindVersionRecommended x) :: nil));
  Unmarshal := Json.Unmarshal_struct Version_names Version_set;
  Decode := Json.Decode_struct Version_names Version_set
|}.

Record User := { Name : string }.

Definition User_zero : User := {| Name := EmptyString |}.

Definition User_set (name v : string) (u : User) : User :=
  if String.eqb name "name" then {| Name := v |} else u.

Definition User_codec : JsonCodec User := {|
  MarshalIndent u := Some (Json.MarshalIndent_struct (("name", Name u) :: nil));
  Unmarshal := Json.Unmarshal_struct ("name" :: nil) User_set;
  Decode := Json.Decode_struct ("name" :: nil) User_set
|}.

(** A download target that decodes from any object but cannot be encoded,
    as a Go struct with a field of channel type. *)
Record Chan := { pending : nat }.

Definition Chan_codec : JsonCodec Chan := {|
  MarshalIndent _ := None;
  Unmarshal := Json.Unmarshal_struct nil (fun _ _ x => x);
  Decode := Json.Decode_struct nil (fun _ _ x => x)
|}.

(** A server that knows the version endpoint and the user record, and
    answers 404 to anything else. *)
Definition respond (status : Z) (text body : string) : option Response :=
  Some {| StatusCode := status; Status := text; Body := body |}.

Definition version_body (required recommended : string) : string :=
  Json.MarshalIndent_struct
    (("version", "2.1.0") :: ("grindVersionRequired", required)
     :: ("grindVersionRecommended", recommended) :: nil).

Definition service (required recommended : string)
    (history : list Request) (req : Request) : option Response :=
  if String.eqb (URL req) "https://dorking.cs.dixie.edu/v2/version" then
    respond 200 "200 OK" (version_body required recommended)
  else if String.eqb (URL req) "https://dorking.cs.dixie.edu/v2/users/me" then
    respond 200 "200 OK" (Json.MarshalIndent_struct (("name", "Ada") :: nil))
  else respond 404 "404 Not Found" "not found".

Definition cmd (api dump : string) : Command :=
  {| Flags := <["api" := api]> (<["api-dump" := dump]> ∅) |}.

(** A process at its start: [Config] is zero, nothing was sent or
    printed. *)
Definition start (env files : gmap string string)
    (srv : list Request -> Request -> option Response)
    (input : list Scanned) : World :=
  {| Config := Config_zero; environ := env; files := files;
     write_denied := fun _ => false; server := srv; sent := nil;
     stdin := input; stdout := nil; log := nil |}.

Definition home : gmap string string := <["HOME" := "/home/ada"]> ∅.

Definition rc (host cookie : string) : gmap string string :=
  <["/home/ada/.codegrinderrc" :=
      Config_MarshalIndent {| Host := host; Cookie := cookie;
                              apiReport := false; apiDump := false |}
      ++ str1 newline]> ∅.

Definition pasted (cookie : string) : list Scanned :=
  {| token := cookie; count := 1; scan_err := false |} :: nil.

(** A server with one answer to everything. *)
Definition always (status : Z) (text body : string)
    (history : list Request) (req : Request) : option Response :=
  respond status text body.

Definition get (host cookie path : string) : Request :=
  {| Method := "GET"; URL := "https://" ++ host ++ "/v2" ++ path; Query := ∅;
     Header := <["Cookie" := cookie :: nil]>
                 (<["Accept" := "application/json" :: nil]> ∅);
     ReqBody := None |}.

(** A process that has loaded a config, before it sends anything. *)
Definition ready (srv : list Request -> Request -> option Response) : World :=
  with_Config {| Host := defaultHost; Cookie := "codegrinder=abc";
                 apiReport := false; apiDump := false |}
    (start home ∅ srv nil).

Definition request {U D : Type} {codecU : JsonCodec U} {codecD : JsonCodec D} :=
  @doRequest url_ok QueryEncode U D codecU codecD.

Definition init : Command -> M unit :=
  @CommandInit url_ok QueryEncode Join CookieName CurrentVersion Version_codec
    User User_zero Name User_codec.

Definition init_verify : Command -> M (option User) :=
  @CommandInit_verify url_ok QueryEncode Join CookieName CurrentVersion
    Version_codec User User_zero User_codec.

Definition gate : M unit :=
  @checkVersion url_ok QueryEncode CurrentVersion Version_codec.

Definition load : Command -> M unit :=
  @mustLoadConfig url_ok QueryEncode Join CurrentVersion Version_codec.

End Sample.

(** ** Tactics *)

(** Case analysis on the innermost scrutinee of the goal. *)
Ltac innermost x :=
  lazymatch x with
  | context [match ?y with _ => _ end] => innermost y
  | _ => destruct x eqn:?
  end.

Ltac step :=
  match goal with
  | |- context [match ?x with _ => _ end] => innermost x; simpl in *
  end.

Ltac unfold_prims :=
  unfold bind, when, getConfig, setConfig, Fatalf, Panicf, panic, Printf,
    Println, ret in *.

(** ** The request dispatcher *)

Lemma is_method_In method :
  is_method method = true <-> In method ("GET" :: "POST" :: "PUT" :: "DELETE" :: nil).
Proof.
  unfold is_method. rewrite !orb_true_iff, !String.eqb_eq. simpl. intuition congruence.
Qed.

Section RequestFacts.
Variable url_ok : string -> bool.
Variable QueryEncode : gmap string string -> string.
Context {U D : Type} {codecU : JsonCodec U} {codecD : JsonCodec D}.

Lemma build_rejects path params method (upload : option U) w :
  HasPrefix path "/" && is_method method = false ->
  exists msg, doRequest_build url_ok QueryEncode path params method upload w
              = Panic (with_log (msg :: log w) w).
Proof.
  intros Hbad. unfold doRequest_build, bind, when.
  destruct (HasPrefix path "/"); simpl in *.
  - rewrite Hbad. simpl. eauto.
  - eauto.
Qed.

Lemma build_no_panic path params method (upload : option U) w w' :
  HasPrefix path "/" = true -> is_method method = true ->
  doRequest_build url_ok QueryEncode path params method upload w <> Panic w'.
Proof.
  intros Hp Hm. unfold doRequest_build. unfold_prims.
  rewrite Hp, Hm. simpl.
  repeat step; discriminate.
Qed.

Lemma result_no_panic url (download : option D) nf resp w w' :
  doRequest_result url download nf resp w <> Panic w'.
Proof.
  unfold doRequest_result. unfold_prims.
  repeat step; discriminate.
Qed.

(** C6: a path that begins with a slash and one of the four methods pass
    the two checks at the head of [doRequest], so the call never ends in
    their panic; any other path or method panics at once, with nothing
    sent and nothing changed but the line logged. *)
Theorem doRequest_contract_checks path params method
    (upload : option U) (download : option D) nf w :
  (HasPrefix path "/" = true ->
   In method ("GET" :: "POST" :: "PUT" :: "DELETE" :: nil) ->
   forall w', doRequest url_ok QueryEncode path params method upload download nf w
              <> Panic w')
  /\ (HasPrefix path "/" = false
      \/ ~ In method ("GET" :: "POST" :: "PUT" :: "DELETE" :: nil) ->
      exists msg,
        doRequest url_ok QueryEncode path params method upload download nf w
        = Panic (with_log (msg :: log w) w)).
Proof.
  split.
  - intros Hp Hm w'. apply is_method_In in Hm.
    unfold doRequest, bind.
    destruct (doRequest_build _ _ _ _ _ _ w) eqn:Hb.
    + unfold Do. destruct (server w0 (sent w0) a).
      * apply result_no_panic.
      * unfold getConfig, Fatalf. discriminate.
    + discriminate.
    + exfalso. eapply build_no_panic; eauto.
  - intros Hbad.
    destruct (build_rejects path params method upload w) as [msg Hmsg].
    + destruct Hbad as [-> | Hm]; [reflexivity |].
      rewrite <- is_method_In in Hm. apply not_true_is_false in Hm. rewrite Hm.
      apply andb_false_r.
    + exists msg. unfold doRequest, bind. rewrite Hmsg. reflexivity.
Qed.

(** C8, as the code has it: with a method other than POST and PUT, an
    upload is dropped without a word; the call runs as if none had been
    given. *)
Theorem upload_ignored_without_body path params method (u : U)
    (download : option D) nf w :
  carries_body method = false ->
  doRequest url_ok QueryEncode path params method (Some u) download nf w
  = doRequest url_ok QueryEncode path params method (@None U) download nf w.
Proof.
  intros Hm. unfold doRequest, doRequest_build. rewrite Hm. reflexivity.
Qed.

Lemma doRequest_answered path params method (upload : option U)
    (download : option D) nf w req w1 resp :
  doRequest_build url_ok QueryEncode path params method upload w = Return req w1 ->
  server w1 (sent w1) req = Some resp ->
  doRequest url_ok QueryEncode path params method upload download nf w
  = doRequest_result (URL req) download nf resp (with_sent (req :: sent w1) w1).
Proof.
  intros Hb Hs. unfold doRequest, bind. rewrite Hb. unfold Do. rewrite Hs. reflexivity.
Qed.

(** C1, as the code has it.  Once the server has answered: a 404 that the
    caller tolerates returns [false]; any other status than 200 is fatal,
    whatever the flag; a 200 returns [false] when there is no download
    target and can only return [true] when there is one.  So [false] comes
    back exactly on a tolerated 404 or on a 200 without a target. *)
Theorem doRequest_status path params method (upload : option U)
    (download : option D) nf w req w1 resp :
  doRequest_build url_ok QueryEncode path params method upload w = Return req w1 ->
  server w1 (sent w1) req = Some resp ->
  let run := doRequest url_ok QueryEncode path params method upload download nf w in
  let tolerated := nf && (StatusCode resp =? StatusNotFound)%Z in
  (tolerated = true -> run = Return (false, download) (with_sent (req :: sent w1) w1))
  /\ (tolerated = false -> StatusCode resp <> StatusOK -> exists w', run = Fatal w')
  /\ (tolerated = false -> StatusCode resp = StatusOK -> download = None ->
      run = Return (false, None) (with_sent (req :: sent w1) w1))
  /\ (tolerated = false -> StatusCode resp = StatusOK -> download <> None ->
      forall b x w', run = Return (b, x) w' -> b = true)
  /\ ((exists x w', run = Return (false, x) w') <->
      tolerated = true \/ (StatusCode resp = StatusOK /\ download = None)).
Proof.
  intros Hb Hs run tolerated. subst run.
  rewrite (doRequest_answered _ _ _ _ _ _ _ _ _ _ Hb Hs).
  unfold doRequest_result. fold tolerated.
  destruct tolerated.
  - repeat split; try discriminate; eauto.
  - unfold_prims.
    destruct (StatusCode resp =? StatusOK)%Z eqn:Hok; simpl.
    + apply Z.eqb_eq in Hok.
      repeat split; try discriminate; try congruence.
      * intros _ _ ->. reflexivity.
      * intros _ _ Hd b x w'. destruct download as [d|]; [|congruence].
        repeat step; congruence.
      * intros (x & w' & Hr). right. split; [assumption|].
        destruct download as [d|]; [|reflexivity].
        exfalso. revert Hr. repeat step; congruence.
      * intros [Hf | [_ ->]]; [discriminate|]. eauto.
    + apply Z.eqb_neq in Hok.
      repeat split; try discriminate; try congruence; eauto.
      * intros (x & w' & Hr). discriminate.
      * intros [Hf | [Hc _]]; [discriminate | contradiction].
Qed.

(** C7, as the code has it: the two diagnostic flags change what is
    logged and nothing else, as long as the dump flag is the same in both
    runs or the downloaded object can always be encoded again. *)
Theorem flags_only_log path params method (upload : option U)
    (download : option D) nf w (r1 d1 r2 d2 : bool) :
  d1 = d2 \/ (forall x : D, MarshalIndent x <> None) ->
  same_course
    (doRequest url_ok QueryEncode path params method upload download nf
       (with_flags r1 d1 w))
    (doRequest url_ok QueryEncode path params method upload download nf
       (with_flags r2 d2 w)).
Proof.
  intros Hd.
  unfold doRequest, doRequest_build, doRequest_result, Do. unfold_prims.
  unfold alike. simpl.
  destruct (HasPrefix path "/"); simpl; [|repeat split; reflexivity].
  destruct (is_method method); simpl; [|repeat split; reflexivity].
  destruct (url_ok _); simpl; [|repeat split; reflexivity].
  assert (Hcase :
    forall (P : bool -> bool -> Prop),
      (forall d, P d d) ->
      ((forall x : D, MarshalIndent x <> None) -> forall a b, P a b) ->
      P d1 d2).
  { intros P Hsame Hany. destruct Hd as [-> | Hm]; auto. }
  clear Hd. apply Hcase; clear Hcase.
  - intros d. destruct r1, r2, d; simpl; repeat step; simpl;
      try (repeat split; congruence).
  - intros Hm a b.
    destruct r1, r2, a, b; simpl; repeat step; simpl;
      try (repeat split; congruence); try (exfalso; eapply Hm; eassumption).
Qed.
End RequestFacts.

(** ** What a run leaves as it is *)

Lemma preserves_ret {A : Type} P (a : A) : preserves P (ret a).
Proof. intros w Hw. exact Hw. Qed.

Lemma preserves_bind {A B : Type} P (m : M A) (k : A -> M B) :
  preserves P m -> (forall a, preserves P (k a)) -> preserves P (bind m k).
Proof.
  intros Hm Hk w Hw. unfold bind. specialize (Hm w Hw).
  destruct (m w); simpl in *; auto. apply Hk. exact Hm.
Qed.

Lemma preserves_when P b (m : M unit) : preserves P m -> preserves P (when b m).
Proof. intros Hm. destruct b; simpl; auto using preserves_ret. Qed.

Lemma preserves_read {A : Type} P (f : World -> A) :
  preserves P (fun w => Return (f w) w).
Proof. intros w Hw. exact Hw. Qed.

Section Stable.
Variable P : World -> Prop.

Lemma preserves_Printf msg : log_blind P -> preserves P (Printf msg).
Proof. intros H w Hw. apply H, Hw. Qed.
Lemma preserves_Fatalf {A : Type} msg : log_blind P -> preserves P (@Fatalf A msg).
Proof. intros H w Hw. apply H, Hw. Qed.
Lemma preserves_Panicf {A : Type} msg : log_blind P -> preserves P (@Panicf A msg).
Proof. intros H w Hw. apply H, Hw. Qed.
Lemma preserves_panic {A : Type} : preserves P (@panic A).
Proof. intros w Hw. exact Hw. Qed.
Lemma preserves_Println msg : stdout_blind P -> preserves P (Println msg).
Proof. intros H w Hw. apply H, Hw. Qed.
Lemma preserves_Scanln : stdin_blind P -> preserves P Scanln.
Proof. intros H w Hw. unfold Scanln. destruct (stdin w); simpl; auto. Qed.
Lemma preserves_Do req : sent_blind P -> preserves P (Do req).
Proof. intros H w Hw. apply H, Hw. Qed.
Lemma preserves_setConfig c : Config_blind P -> preserves P (setConfig c).
Proof. intros H w Hw. apply H, Hw. Qed.
Lemma preserves_getConfig : preserves P getConfig.
Proof. intros w Hw. exact Hw. Qed.
Lemma preserves_Getenv name : preserves P (Getenv name).
Proof. intros w Hw. exact Hw. Qed.
Lemma preserves_ReadFile name : preserves P (ReadFile name).
Proof. intros w Hw. exact Hw. Qed.
End Stable.

Create HintDb pres discriminated.

Ltac pres_step :=
  first
    [ solve [auto with pres nocore]
    | apply preserves_ret
    | apply preserves_getConfig
    | apply preserves_Getenv
    | apply preserves_ReadFile
    | apply preserves_panic
    | apply preserves_when
    | apply preserves_bind; [| intros ?]
    | apply preserves_Printf; assumption
    | apply preserves_Fatalf; assumption
    | apply preserves_Panicf; assumption
    | apply preserves_Println; assumption
    | apply preserves_Scanln; assumption
    | apply preserves_Do; assumption
    | apply preserves_setConfig; assumption
    | match goal with
      | |- preserves _ (match ?x with _ => _ end) => destruct x
      | |- preserves _ (let (_, _) := ?x in _) => destruct x
      end ].

(** ** The version order *)

Lemma cmpN_range a b : semver.cmpN a b = 0%Z \/ semver.cmpN a b = 1%Z \/ semver.cmpN a b = (-1)%Z.
Proof. unfold semver.cmpN. repeat step; auto. Qed.

Lemma PRVersion_Compare_range v o :
  semver.PRVersion_Compare v o = 0%Z \/ semver.PRVersion_Compare v o = 1%Z
  \/ semver.PRVersion_Compare v o = (-1)%Z.
Proof.
  unfold semver.PRVersion_Compare.
  repeat step; auto using cmpN_range.
Qed.

Lemma Pre_Compare_range v : forall o,
  semver.Pre_Compare v o = 0%Z \/ semver.Pre_Compare v o = 1%Z
  \/ semver.Pre_Compare v o = (-1)%Z.
Proof.
  induction v as [|x v IH]; intros [|y o]; simpl; auto.
  repeat step; auto.
Qed.

Lemma Compare_range v o :
  semver.Compare v o = 0%Z \/ semver.Compare v o = 1%Z \/ semver.Compare v o = (-1)%Z.
Proof.
  unfold semver.Compare.
  repeat step; auto using cmpN_range, Pre_Compare_range.
Qed.

(** Not greater is lower or equal. *)
Lemma GT_LTE v o : semver.GT v o = negb (semver.LTE v o).
Proof.
  unfold semver.GT, semver.LTE.
  destruct (Compare_range v o) as [-> | [-> | ->]]; reflexivity.
Qed.

Lemma assign_Config_flags m : forall c c',
  Json.assign Config_names Config_set m c = Some c' ->
  apiReport c' = apiReport c /\ apiDump c' = apiDump c.
Proof.
  induction m as [|[key v] m IH]; simpl; intros c c' H.
  - inversion H. auto.
  - destruct (Json.field_for Config_names key) as [n|]; [|auto].
    destruct v; try discriminate; auto.
    apply IH in H. unfold Config_set in H.
    destruct (String.eqb n "host"); [exact H|].
    destruct (String.eqb n "cookie"); exact H.
Qed.

Lemma Unmarshal_Config_flags raw c c' :
  Unmarshal raw c = Some c' ->
  apiReport c' = apiReport c /\ apiDump c' = apiDump c.
Proof.
  simpl. unfold Json.Unmarshal_struct, Json.store.
  repeat step; try discriminate; intros H.
  - inversion H. auto.
  - eapply assign_Config_flags; eassumption.
Qed.

Lemma preserves_of_Config {A : Type} (Q : ConfigT -> Prop) (m : M A) :
  (forall c0, preserves (fun w => Config w = c0) m) ->
  preserves (fun w => Q (Config w)) m.
Proof.
  intros H w Hw. specialize (H (Config w) w eq_refl). rewrite H. exact Hw.
Qed.

Section GrindFacts.
Variable url_ok : string -> bool.
Variable QueryEncode : gmap string string -> string.
Variable Join : string -> string -> string.
Variable CookieName : string.
Variable CurrentVersion : types_Version.
Context {Version_codec : JsonCodec types_Version}.
Variable User : Type.
Variable User_zero : User.
Variable Name : User -> string.
Context {User_codec : JsonCodec User}.

Section Requests.
Context {U D : Type} {codecU : JsonCodec U} {codecD : JsonCodec D}.
Variable P : World -> Prop.
Hypothesis Hlog : log_blind P.
Hypothesis Hsent : sent_blind P.

Lemma preserves_doRequest path params method (upload : option U)
    (download : option D) nf :
  preserves P (doRequest url_ok QueryEncode path params method upload download nf).
Proof.
  unfold doRequest, doRequest_build, doRequest_result.
  repeat pres_step.
Qed.
End Requests.

(** A request that returns went out and came back with a 200. *)
Lemma mustGetObject_returns {D : Type} {codecD : JsonCodec D}
    path (d : D) w r w1 :
  mustGetObject url_ok QueryEncode path ∅ (Some d) w = Return r w1 ->
  exists req resp d',
    sent w1 = req :: sent w /\ server w1 = server w
    /\ Config w1 = Config w /\ files w1 = files w
    /\ Method req = "GET"
    /\ URL req = "https://" ++ Host (Config w) ++ "/v2" ++ path
    /\ server w (sent w) req = Some resp
    /\ StatusCode resp = StatusOK
    /\ Decode (Body resp) d = Some d' /\ r = Some d'.
Proof.
  unfold mustGetObject, doRequest, doRequest_build, doRequest_result, Do.
  unfold_prims. simpl.
  repeat step; intros Hr; try discriminate; inversion Hr; subst; clear Hr;
    simpl;
    match goal with
    | H : negb (_ =? StatusOK)%Z = false |- _ =>
      rewrite negb_false_iff, Z.eqb_eq in H
    end;
    eexists; eexists; eexists; simpl;
    repeat split; try reflexivity; eassumption.
Qed.

Section Preserved.
Variable P : World -> Prop.
Hypothesis Hlog : log_blind P.
Hypothesis Hsent : sent_blind P.

Lemma preserves_mustGetObject {D : Type} {codecD : JsonCodec D}
    path params (download : option D) :
  preserves P (mustGetObject url_ok QueryEncode path params download).
Proof.
  unfold mustGetObject. apply preserves_bind; [| intros ?; apply preserves_ret].
  apply preserves_doRequest; assumption.
Qed.
Hint Resolve preserves_mustGetObject : pres.

Lemma preserves_MustParse s : preserves P (MustParse s).
Proof. unfold MustParse. repeat pres_step. Qed.
Hint Resolve preserves_MustParse : pres.

Lemma preserves_checkVersion_compare server :
  preserves P (checkVersion_compare CurrentVersion server).
Proof. unfold checkVersion_compare. repeat pres_step. Qed.
Hint Resolve preserves_checkVersion_compare : pres.

Lemma preserves_checkVersion :
  preserves P (checkVersion url_ok QueryEncode CurrentVersion).
Proof.
  unfold checkVersion. apply preserves_bind; [| intros ?].
  - apply preserves_mustGetObject.
  - apply preserves_checkVersion_compare.
Qed.
Hint Resolve preserves_checkVersion : pres.

Lemma preserves_configFile : preserves P (configFile Join).
Proof. unfold configFile. repeat pres_step. Qed.
Hint Resolve preserves_configFile : pres.

Lemma preserves_flag_is_true cmd name : preserves P (flag_is_true cmd name).
Proof. unfold flag_is_true. repeat pres_step. Qed.
Hint Resolve preserves_flag_is_true : pres.

Hypothesis Hstdin : stdin_blind P.

Lemma preserves_read_cookie : preserves P (read_cookie CookieName).
Proof. unfold read_cookie. repeat pres_step. Qed.
Hint Resolve preserves_read_cookie : pres.

Hypothesis Hstdout : stdout_blind P.
Hypothesis HConfig : Config_blind P.

Lemma preserves_mustLoadConfig cmd :
  preserves P (mustLoadConfig url_ok QueryEncode Join CurrentVersion cmd).
Proof.
  unfold mustLoadConfig. repeat pres_step.
Qed.
Hint Resolve preserves_mustLoadConfig : pres.

Lemma preserves_CommandInit_verify cmd :
  preserves P
    (CommandInit_verify url_ok QueryEncode Join CookieName CurrentVersion
       User User_zero cmd).
Proof.
  unfold CommandInit_verify. repeat pres_step.
Qed.
End Preserved.

Lemma CommandInit_split cmd w :
  CommandInit url_ok QueryEncode Join CookieName CurrentVersion User User_zero Name cmd w
  = bind (CommandInit_verify url_ok QueryEncode Join CookieName CurrentVersion
            User User_zero cmd)
         (CommandInit_save Join User User_zero Name) w.
Proof.
  unfold CommandInit, CommandInit_verify, CommandInit_save, bind.
  repeat step; reflexivity.
Qed.

(** C4: if [CommandInit] stops before the user record is fetched and
    decoded, it aborts with the files as they were; if that fetch returns,
    a GET of [/users/me] was answered with a 200 that decoded, the files
    are still as they were, and only then comes the write. *)
Theorem init_saves_after_verification cmd w :
  let verify := CommandInit_verify url_ok QueryEncode Join CookieName
                  CurrentVersion User User_zero cmd w in
  let run := CommandInit url_ok QueryEncode Join CookieName CurrentVersion
               User User_zero Name cmd w in
  (aborts verify = true ->
   aborts run = true /\ files (final_world run) = files w)
  /\ (forall user w1, verify = Return user w1 ->
      run = CommandInit_save Join User User_zero Name user w1
      /\ files w1 = files w
      /\ exists req before resp u,
           sent w1 = req :: before
           /\ Method req = "GET"
           /\ URL req = "https://" ++ Host (Config w1) ++ "/v2/users/me"
           /\ server w1 before req = Some resp
           /\ StatusCode resp = StatusOK
           /\ Decode (Body resp) User_zero = Some u
           /\ user = Some u).
Proof.
  intros verify run.
  assert (Hfiles : files (final_world verify) = files w).
  { apply (preserves_CommandInit_verify (fun w' => files w' = files w));
      try (intros ? ? Hw; exact Hw). reflexivity. }
  assert (Hrun : run = bind (fun _ => verify) (CommandInit_save Join User User_zero Name) w).
  { apply CommandInit_split. }
  unfold bind in Hrun. split.
  - intros Hab. rewrite Hrun. destruct verify; simpl in *; try discriminate; auto.
  - intros user w1 Hv. rewrite Hrun, Hv in *. simpl in Hfiles.
    split; [reflexivity|]. split; [assumption|].
    subst verify. revert Hv. unfold CommandInit_verify, bind.
    repeat step; try discriminate; intros Hget;
      apply mustGetObject_returns in Hget;
      destruct Hget as (req & resp & d' & Hs & Hsrv & Hc & _ & Hm & Hu & Hr & Hok & Hd & ->);
      exists req; eexists; exists resp, d';
      (split; [exact Hs|]); rewrite Hsrv, Hc; auto 10.
Qed.

(** C2: once the descriptor is fetched and the three versions parse, a
    required version above the client's is fatal; else a recommended
    version above the client's logs the two lines of the warning and the
    call returns; else the call returns with nothing logged and nothing
    changed. *)
Theorem checkVersion_gate w server w1 current required recommended :
  mustGetObject url_ok QueryEncode "/version" ∅ (Some Version_zero) w
    = Return (Some server) w1 ->
  semver.Parse (Version CurrentVersion) = Some current ->
  semver.Parse (GrindVersionRequired server) = Some required ->
  semver.Parse (GrindVersionRecommended server) = Some recommended ->
  let run := checkVersion url_ok QueryEncode CurrentVersion w in
  (semver.GT required current = true ->
   run = Fatal (with_log
     ("  you must upgrade to continue"
      :: ("this is grind version " ++ Version CurrentVersion
          ++ ", but the server requires " ++ GrindVersionRequired server
          ++ " or higher")
      :: log w1) w1))
  /\ (semver.GT required current = false ->
      semver.GT recommended current = true ->
      run = Return tt (with_log
        ("  please upgrade as soon as possible"
         :: ("this is grind version " ++ Version CurrentVersion
             ++ ", but the server recommends " ++ GrindVersionRecommended server
             ++ " or higher")
         :: log w1) w1))
  /\ (semver.LTE required current = true ->
      semver.LTE recommended current = true ->
      run = Return tt w1).
Proof.
  intros Hget Hc Hr Hm run. subst run.
  unfold checkVersion, bind. rewrite Hget. simpl.
  unfold checkVersion_compare, MustParse, bind. rewrite Hc, Hr, Hm. simpl.
  rewrite !GT_LTE.
  repeat split.
  - intros H. rewrite H. reflexivity.
  - intros H1 H2. rewrite H1, H2. reflexivity.
  - intros H1 H2. rewrite H1, H2. reflexivity.
Qed.

Lemma configFile_world w file w0 : configFile Join w = Return file w0 -> w0 = w.
Proof.
  unfold configFile, Getenv. unfold_prims.
  repeat step; intros H; inversion H; reflexivity.
Qed.

Lemma mustLoadConfig_missing cmd w file :
  configFile Join w = Return file w -> files w !! file = None ->
  mustLoadConfig url_ok QueryEncode Join CurrentVersion cmd w
  = Fatal (with_log (missing_config :: log w) w).
Proof.
  intros Hf Hnone. unfold mustLoadConfig, bind. rewrite Hf.
  unfold ReadFile. rewrite Hnone. reflexivity.
Qed.

(** Without a config file that can be read, [CommandInit] stops in
    [mustLoadConfig]. *)
Lemma CommandInit_missing cmd w file :
  configFile Join w = Return file w -> files w !! file = None ->
  CommandInit url_ok QueryEncode Join CookieName CurrentVersion User User_zero
    Name cmd w
  = Fatal (with_log (missing_config :: log w) w).
Proof.
  intros Hf Hnone. unfold CommandInit, bind.
  rewrite (mustLoadConfig_missing cmd w file Hf Hnone). reflexivity.
Qed.

(** C10: when [mustLoadConfig] returns, the dump flag implies the report
    flag, provided it did before the call, as it does when the process
    starts. *)
Theorem dump_implies_report cmd w w' :
  flags_ok (Config w) ->
  mustLoadConfig url_ok QueryEncode Join CurrentVersion cmd w = Return tt w' ->
  flags_ok (Config w').
Proof.
  intros Hw Hrun.
  change (flags_ok (Config (final_world (Return tt w')))). rewrite <- Hrun.
  revert w Hw Hrun. intros w Hw _. revert w Hw.
  change (preserves (fun w => flags_ok (Config w))
            (mustLoadConfig url_ok QueryEncode Join CurrentVersion cmd)).
  unfold mustLoadConfig.
  apply preserves_bind; [apply preserves_configFile; intros ? ? H; exact H | intros file].
  apply preserves_bind; [apply preserves_ReadFile | intros raw].
  apply preserves_bind.
  { destruct raw as [raw|]; [| apply preserves_Fatalf; intros ? ? H; exact H].
    intros w Hw. unfold bind, getConfig.
    destruct (Unmarshal raw (Config w)) as [c'|] eqn:Hu; simpl; [| exact Hw].
    apply Unmarshal_Config_flags in Hu. destruct Hu as [Hr Hd].
    unfold flags_ok. rewrite Hr, Hd. exact Hw. }
  intros _.
  apply preserves_bind; [apply preserves_flag_is_true; intros ? ? H; exact H | intros api].
  apply preserves_bind.
  { apply preserves_when. intros w Hw. simpl. intros _. reflexivity. }
  intros _.
  apply preserves_bind; [apply preserves_flag_is_true; intros ? ? H; exact H | intros dump].
  apply preserves_bind.
  { apply preserves_when. intros w Hw. simpl. intros _. reflexivity. }
  intros _.
  apply (preserves_of_Config flags_ok). intros c0.
  apply preserves_checkVersion; intros ? ? H; exact H.
Qed.

Lemma read_cookie_rejects w sc rest :
  stdin w = sc :: rest -> scan_err sc = false -> count sc = 1%Z ->
  HasPrefix (token sc) (CookieName ++ "=") = false ->
  read_cookie CookieName w
  = Fatal (with_log
      (("the cookie must start with " ++ CookieName
        ++ "=; perhaps you copied the wrong thing?") :: log w)
      (with_stdin rest w)).
Proof.
  intros Hin He Hc Hp. unfold read_cookie, Scanln, bind.
  rewrite Hin, He, Hc, Hp. reflexivity.
Qed.
End GrindFacts.

#[local] Arguments String.append : simpl nomatch.

(** ** The JSON round trip of a string *)

Ltac bits b :=
  let b0 := fresh in let b1 := fresh in let b2 := fresh in let b3 := fresh in
  let b4 := fresh in let b5 := fresh in let b6 := fresh in let b7 := fresh in
  destruct b as [b0 b1 b2 b3 b4 b5 b6 b7];
  destruct b0, b1, b2, b3, b4, b5, b6, b7.

Lemma read_escape_ascii b t :
  (N_of_ascii b <? 0x80) = true ->
  Json.read_string (Json.escape_ascii b ++ t)
  = Json.prepend (str1 b) (Json.read_string t).
Proof.
  intros Hb. bits b; try discriminate Hb; reflexivity.
Qed.

Lemma lead_byte_plain b :
  (N_of_ascii b <? 0x80) = false ->
  Ascii.eqb b dquote = false /\ Ascii.eqb b backslash = false
  /\ (N_of_ascii b <? 0x20) = false.
Proof.
  intros Hb. bits b; try discriminate Hb; repeat split; reflexivity.
Qed.

Lemma rune_width_ascii b r :
  (N_of_ascii b <? 0x80) = true -> rune_width (String b r) = 1%nat.
Proof. intros H. simpl. rewrite H. reflexivity. Qed.

(** The width of a sequence depends on its own bytes only. *)
Lemma rune_width_2 b0 b1 r :
  rune_width (String b0 (String b1 r)) = 2%nat ->
  (N_of_ascii b0 <? 0x80) = false
  /\ forall t, rune_width (String b0 (String b1 t)) = 2%nat.
Proof.
  unfold rune_width.
  destruct (N_of_ascii b0 <? 0x80); [discriminate|].
  destruct (in_range 0xC2 0xDF b0).
  - destruct (is_cont b1); [auto | discriminate].
  - destruct r as [|b2 r]; [discriminate|].
    destruct (lead3 b0 b1); [destruct (is_cont b2); discriminate|].
    destruct r as [|b3 r]; [discriminate|].
    destruct (lead4 b0 b1 && is_cont b2 && is_cont b3); discriminate.
Qed.

Lemma rune_width_3 b0 b1 b2 r :
  rune_width (String b0 (String b1 (String b2 r))) = 3%nat ->
  (N_of_ascii b0 <? 0x80) = false
  /\ forall t, rune_width (String b0 (String b1 (String b2 t))) = 3%nat.
Proof.
  unfold rune_width.
  destruct (N_of_ascii b0 <? 0x80); [discriminate|].
  destruct (in_range 0xC2 0xDF b0).
  - destruct (is_cont b1); discriminate.
  - destruct (lead3 b0 b1).
    + destruct (is_cont b2); [auto | discriminate].
    + destruct r as [|b3 r]; [discriminate|].
      destruct (lead4 b0 b1 && is_cont b2 && is_cont b3); discriminate.
Qed.

Lemma rune_width_4 b0 b1 b2 b3 r :
  rune_width (String b0 (String b1 (String b2 (String b3 r)))) = 4%nat ->
  (N_of_ascii b0 <? 0x80) = false
  /\ forall t, rune_width (String b0 (String b1 (String b2 (String b3 t)))) = 4%nat.
Proof.
  unfold rune_width.
  destruct (N_of_ascii b0 <? 0x80); [discriminate|].
  destruct (in_range 0xC2 0xDF b0).
  - destruct (is_cont b1); discriminate.
  - destruct (lead3 b0 b1).
    + destruct (is_cont b2); discriminate.
    + destruct (lead4 b0 b1 && is_cont b2 && is_cont b3); [auto | discriminate].
Qed.

(** One step of each function, with [rune_width] left folded. *)
Lemma utf8_valid_eq b0 r0 :
  utf8_valid (String b0 r0)
  = match rune_width (String b0 r0), r0 with
    | 1%nat, _ => utf8_valid r0
    | 2%nat, String _ r1 => utf8_valid r1
    | 3%nat, String _ (String _ r2) => utf8_valid r2
    | 4%nat, String _ (String _ (String _ r3)) => utf8_valid r3
    | _, _ => false
    end.
Proof. reflexivity. Qed.

Lemma quote_body_eq b0 r0 :
  Json.quote_body (String b0 r0)
  = if N_of_ascii b0 <? 0x80 then Json.escape_ascii b0 ++ Json.quote_body r0
    else
      match rune_width (String b0 r0), r0 with
      | 2%nat, String b1 r1 => String b0 (String b1 (Json.quote_body r1))
      | 3%nat, String b1 (String b2 r2) =>
        if Json.is_line_sep b0 b1 b2 then
          String backslash (String "u"%char (String "2"%char (String "0"%char
            (String "2"%char (String (Json.hex_digit (N.land (N_of_ascii b2) 0xF))
              (Json.quote_body r2))))))
        else String b0 (String b1 (String b2 (Json.quote_body r2)))
      | 4%nat, String b1 (String b2 (String b3 r3)) =>
        String b0 (String b1 (String b2 (String b3 (Json.quote_body r3))))
      | _, _ =>
        String backslash (String "u"%char (String "f"%char (String "f"%char
          (String "f"%char (String "d"%char (Json.quote_body r0))))))
      end.
Proof. reflexivity. Qed.

Lemma read_string_lead c r :
  (N_of_ascii c <? 0x80) = false ->
  Json.read_string (String c r)
  = match rune_width (String c r), r with
    | 2%nat, String b1 r1 => Json.prepend (String c (str1 b1)) (Json.read_string r1)
    | 3%nat, String b1 (String b2 r2) =>
      Json.prepend (String c (String b1 (str1 b2))) (Json.read_string r2)
    | 4%nat, String b1 (String b2 (String b3 r3)) =>
      Json.prepend (String c (String b1 (String b2 (str1 b3)))) (Json.read_string r3)
    | _, _ => Json.prepend replacement (Json.read_string r)
    end.
Proof.
  intros Hc. destruct (lead_byte_plain c Hc) as (Hq & Hb & Hl).
  change (Json.read_string (String c r)) with
    (if Ascii.eqb c dquote then Some (EmptyString, r)
     else if Ascii.eqb c backslash then
       match r with
       | EmptyString => None
       | String e r1 =>
         match Json.simple_escape e with
         | Some d => Json.prepend (str1 d) (Json.read_string r1)
         | None =>
           if Ascii.eqb e "u"%char then
             match r1 with
             | String h1 (String h2 (String h3 (String h4 r5))) =>
               match Json.getu4 h1 h2 h3 h4 with
               | None => None
               | Some rr =>
                 if Json.is_surrogate rr then
                   match Json.peek_u4 r5, r5 with
                   | Some rr1,
                     String _ (String _ (String _ (String _ (String _ (String _ r11))))) =>
                     match Json.utf16_DecodeRune rr rr1 with
                     | Some dec => Json.prepend (EncodeRune dec) (Json.read_string r11)
                     | None => Json.prepend replacement (Json.read_string r5)
                     end
                   | _, _ => Json.prepend replacement (Json.read_string r5)
                   end
                 else Json.prepend (EncodeRune rr) (Json.read_string r5)
               end
             | _ => None
             end
           else None
         end
       end
     else if N_of_ascii c <? 0x20 then None
     else if N_of_ascii c <? 0x80 then Json.prepend (str1 c) (Json.read_string r)
     else
       match rune_width (String c r), r with
       | 2%nat, String b1 r1 => Json.prepend (String c (str1 b1)) (Json.read_string r1)
       | 3%nat, String b1 (String b2 r2) =>
         Json.prepend (String c (String b1 (str1 b2))) (Json.read_string r2)
       | 4%nat, String b1 (String b2 (String b3 r3)) =>
         Json.prepend (String c (String b1 (String b2 (str1 b3)))) (Json.read_string r3)
       | _, _ => Json.prepend replacement (Json.read_string r)
       end).
  rewrite Hq, Hb, Hl, Hc. reflexivity.
Qed.

Lemma append_assoc (a b c : string) : (a ++ b) ++ c = a ++ (b ++ c).
Proof. induction a as [|x a IH]; simpl; congruence. Qed.

Lemma byte_is b n : (N_of_ascii b =? n) = true -> b = ascii_of_N n.
Proof.
  intros H. apply N.eqb_eq in H. rewrite <- H. symmetry. apply ascii_N_embedding.
Qed.

Lemma read_line_sep b0 b1 b2 t :
  Json.is_line_sep b0 b1 b2 = true ->
  Json.read_string
    (String backslash (String "u"%char (String "2"%char (String "0"%char
       (String "2"%char (String (Json.hex_digit (N.land (N_of_ascii b2) 0xF)) t))))))
  = Json.prepend (String b0 (String b1 (str1 b2))) (Json.read_string t).
Proof.
  unfold Json.is_line_sep. rewrite !andb_true_iff, orb_true_iff.
  intros [[H0 H1] H2].
  apply byte_is in H0, H1. subst b0 b1.
  destruct H2 as [H2 | H2]; apply byte_is in H2; subst b2; reflexivity.
Qed.

(** What [quote] writes for a valid UTF-8 string, [read_string] reads back
    as that string. *)
Lemma read_string_quote_body n : forall s rest,
  (String.length s <= n)%nat -> utf8_valid s = true ->
  Json.read_string (Json.quote_body s ++ String dquote rest) = Some (s, rest).
Proof.
  induction n as [|n IH]; intros s rest Hlen Hv.
  - destruct s; [reflexivity | simpl in Hlen; lia].
  - destruct s as [|b0 r0]; [reflexivity|].
    rewrite utf8_valid_eq in Hv. rewrite quote_body_eq.
    simpl in Hlen.
    destruct (N_of_ascii b0 <? 0x80) eqn:Hb.
    + rewrite (rune_width_ascii _ _ Hb) in Hv.
      rewrite append_assoc, (read_escape_ascii _ _ Hb), IH; [reflexivity | lia | exact Hv].
    + destruct (rune_width (String b0 r0)) as [|[|[|[|[|k]]]]] eqn:W;
        try discriminate Hv.
      * (* width 1 is for ASCII *)
        exfalso. revert W. simpl. rewrite Hb.
        repeat step; discriminate.
      * destruct r0 as [|b1 r1]; [discriminate|].
        destruct (rune_width_2 _ _ _ W) as [_ W'].
        simpl String.append. rewrite (read_string_lead _ _ Hb), W'.
        simpl in Hlen. rewrite IH; [reflexivity | lia | exact Hv].
      * destruct r0 as [|b1 [|b2 r2]]; try discriminate.
        destruct (rune_width_3 _ _ _ _ W) as [_ W'].
        simpl in Hlen.
        destruct (Json.is_line_sep b0 b1 b2) eqn:Hsep.
        -- simpl String.append. rewrite (read_line_sep _ _ _ _ Hsep).
           rewrite IH; [reflexivity | lia | exact Hv].
        -- simpl String.append. rewrite (read_string_lead _ _ Hb), W'.
           rewrite IH; [reflexivity | lia | exact Hv].
      * destruct r0 as [|b1 [|b2 [|b3 r3]]]; try discriminate.
        destruct (rune_width_4 _ _ _ _ _ W) as [_ W'].
        simpl in Hlen.
        simpl String.append. rewrite (read_string_lead _ _ Hb), W'.
        rewrite IH; [reflexivity | lia | exact Hv].
Qed.

Lemma read_string_quote s rest :
  utf8_valid s = true ->
  Json.read_string (Json.quote_body s ++ String dquote rest) = Some (s, rest).
Proof. apply (read_string_quote_body (String.length s)). lia. Qed.

Lemma quote_append s x :
  Json.quote s ++ x = String dquote (Json.quote_body s ++ String dquote x).
Proof. unfold Json.quote. simpl. rewrite append_assoc. reflexivity. Qed.

(** One step of the parser on a string, on an object, on a member. *)
Lemma value_string fuel depth r :
  Json.value (S fuel) depth (String dquote r)
  = match Json.read_string r with
    | Some (str, rest) => Json.Parsed (Json.JString str) rest
    | None => Json.SyntaxError
    end.
Proof. reflexivity. Qed.

Lemma value_object fuel depth r :
  Json.value (S fuel) depth (String "{"%char r)
  = if Json.maxNestingDepth <? N.succ depth then Json.SyntaxError
    else
      match Json.skip_space r with
      | String c' rest =>
        if Ascii.eqb c' "}"%char then Json.Parsed (Json.JObject nil) rest
        else
          match Json.members fuel (N.succ depth) (Json.skip_space r) with
          | Json.Parsed m rest' => Json.Parsed (Json.JObject m) rest'
          | Json.SyntaxError => Json.SyntaxError
          | Json.Exhausted => Json.Exhausted
          end
      | EmptyString => Json.SyntaxError
      end.
Proof. reflexivity. Qed.

Lemma members_key fuel depth r :
  Json.members (S fuel) depth (String dquote r)
  = match Json.read_string r with
    | None => Json.SyntaxError
    | Some (key, r1) =>
      match Json.skip_space r1 with
      | EmptyString => Json.SyntaxError
      | String c1 r2 =>
        if Ascii.eqb c1 ":"%char then
          match Json.value fuel depth (Json.skip_space r2) with
          | Json.SyntaxError => Json.SyntaxError
          | Json.Exhausted => Json.Exhausted
          | Json.Parsed v r3 =>
            match Json.skip_space r3 with
            | EmptyString => Json.SyntaxError
            | String c3 r4 =>
              if Ascii.eqb c3 "}"%char then Json.Parsed ((key, v) :: nil) r4
              else if Ascii.eqb c3 ","%char then
                match Json.members fuel depth (Json.skip_space r4) with
                | Json.Parsed m rest => Json.Parsed ((key, v) :: m) rest
                | Json.SyntaxError => Json.SyntaxError
                | Json.Exhausted => Json.Exhausted
                end
              else Json.SyntaxError
            end
          end
        else Json.SyntaxError
      end
    end.
Proof. reflexivity. Qed.

Lemma members_member fuel depth k v rest :
  utf8_valid k = true -> utf8_valid v = true ->
  Json.members (S (S fuel)) depth (member_text k v rest)
  = match Json.skip_space rest with
    | EmptyString => Json.SyntaxError
    | String c3 r4 =>
      if Ascii.eqb c3 "}"%char then Json.Parsed ((k, Json.JString v) :: nil) r4
      else if Ascii.eqb c3 ","%char then
        match Json.members (S fuel) depth (Json.skip_space r4) with
        | Json.Parsed m rest' => Json.Parsed ((k, Json.JString v) :: m) rest'
        | Json.SyntaxError => Json.SyntaxError
        | Json.Exhausted => Json.Exhausted
        end
      else Json.SyntaxError
    end.
Proof.
  intros Hk Hv. unfold member_text.
  rewrite !quote_append, members_key, (read_string_quote _ _ Hk).
  change (Json.skip_space (String ":"%char ?x)) with (String ":"%char x).
  change (Ascii.eqb ":"%char ":"%char) with true. cbv iota.
  change (Json.skip_space (String " "%char ?x)) with (Json.skip_space x).
  change (Json.skip_space (String dquote ?x)) with (String dquote x).
  rewrite value_string, (read_string_quote _ _ Hv). reflexivity.
Qed.

Lemma Config_MarshalIndent_text c tail :
  Config_MarshalIndent c ++ tail = Config_text (Host c) (Cookie c) tail.
Proof.
  unfold Config_MarshalIndent, Json.MarshalIndent_struct, Json.members_text,
    Config_text, member_text.
  rewrite !append_assoc. reflexivity.
Qed.

Lemma member_text_head k v rest :
  member_text k v rest
  = String dquote (Json.quote_body k ++ String dquote
      (String ":"%char (String " "%char (Json.quote v ++ rest)))).
Proof. unfold member_text. apply quote_append. Qed.

Lemma skip_space_member k v rest :
  Json.skip_space (member_text k v rest) = member_text k v rest.
Proof. rewrite member_text_head. reflexivity. Qed.

Lemma skip_space_indent x :
  Json.skip_space (String newline ("    " ++ x)) = Json.skip_space x.
Proof. reflexivity. Qed.

Lemma value_object_members fuel r k v rest :
  Json.skip_space r = member_text k v rest ->
  Json.value (S fuel) 0 (String "{"%char r)
  = match Json.members fuel 1 (member_text k v rest) with
    | Json.Parsed m rest' => Json.Parsed (Json.JObject m) rest'
    | Json.SyntaxError => Json.SyntaxError
    | Json.Exhausted => Json.Exhausted
    end.
Proof.
  intros Hr. rewrite value_object, Hr, member_text_head. reflexivity.
Qed.

Lemma value_Config_text fuel host cookie tail :
  utf8_valid host = true -> utf8_valid cookie = true ->
  Json.value (S (S (S (S fuel)))) 0 (Config_text host cookie tail)
  = Json.Parsed
      (Json.JObject (("host", Json.JString host)
                     :: ("cookie", Json.JString cookie) :: nil))
      tail.
Proof.
  intros Hh Hc. unfold Config_text.
  erewrite value_object_members
    by (rewrite skip_space_indent; apply skip_space_member).
  rewrite (members_member _ _ "host" host _ eq_refl Hh).
  change (Json.skip_space (String ","%char ?x)) with (String ","%char x).
  cbv iota.
  change (Ascii.eqb ","%char "}"%char) with false.
  change (Ascii.eqb ","%char ","%char) with true. cbv iota.
  rewrite skip_space_indent, skip_space_member.
  rewrite (members_member _ _ "cookie" cookie _ eq_refl Hc).
  reflexivity.
Qed.

Lemma first_value_Config c :
  utf8_valid (Host c) = true -> utf8_valid (Cookie c) = true ->
  Json.first_value (Config_MarshalIndent c ++ str1 newline)
  = Json.Parsed
      (Json.JObject (("host", Json.JString (Host c))
                     :: ("cookie", Json.JString (Cookie c)) :: nil))
      (str1 newline).
Proof.
  intros HH HC. rewrite Config_MarshalIndent_text.
  unfold Json.first_value, Json.fuel_for.
  change (Json.skip_space (Config_text ?h ?c ?t)) with (Config_text h c t).
  change (String.length (Config_text ?h ?c ?t))
    with (S (S (String.length ("    " ++ member_text "host" h
         (String ","%char (String newline ("    "
            ++ member_text "cookie" c
                 (String newline (String "}"%char t))))))))).
  apply value_Config_text; assumption.
Qed.

Lemma Unmarshal_Config c c0 :
  utf8_valid (Host c) = true -> utf8_valid (Cookie c) = true ->
  Unmarshal (Config_MarshalIndent c ++ str1 newline) c0
  = Some {| Host := Host c; Cookie := Cookie c;
            apiReport := apiReport c0; apiDump := apiDump c0 |}.
Proof.
  intros HH HC. unfold Unmarshal, Config_codec, Json.Unmarshal_struct.
  rewrite (first_value_Config c HH HC). reflexivity.
Qed.

Section StoreFacts.
Variable url_ok : string -> bool.
Variable QueryEncode : gmap string string -> string.
Variable Join : string -> string -> string.
Variable CurrentVersion : types_Version.
Context {Version_codec : JsonCodec types_Version}.

(** The config file is found from the environment alone. *)
Lemma configFile_environ w w1 file :
  environ w1 = environ w ->
  configFile Join w = Return file w -> configFile Join w1 = Return file w1.
Proof.
  intros He. unfold configFile, Getenv. unfold_prims. simpl.
  repeat (step; rewrite ?He in * ); intros H; inversion H; congruence.
Qed.

(** C5: a config whose host and cookie are valid UTF-8 is saved, and a
    process that starts on the saved file loads the same host and cookie;
    its two flags are those of its own command line ([api-dump] turns
    both on), whatever they were in the process that saved.  What is left
    of the load is the version gate. *)
Theorem config_round_trip cmd api dump w file :
  well_formed (Config w) ->
  configFile Join w = Return file w ->
  write_denied w file = false ->
  Flags cmd !! "api" = Some api ->
  Flags cmd !! "api-dump" = Some dump ->
  let saved :=
    with_files (<[file := Config_MarshalIndent (Config w) ++ str1 newline]> (files w)) w in
  let loaded :=
    {| Host := Host (Config w); Cookie := Cookie (Config w);
       apiReport := String.eqb api "true" || String.eqb dump "true";
       apiDump := String.eqb dump "true" |} in
  mustWriteConfig Join w = Return tt saved
  /\ forall w1,
       files w1 = files saved -> environ w1 = environ w -> Config w1 = Config_zero ->
       mustLoadConfig url_ok QueryEncode Join CurrentVersion cmd w1
       = checkVersion url_ok QueryEncode CurrentVersion (with_Config loaded w1)
       /\ forall w2,
            mustLoadConfig url_ok QueryEncode Join CurrentVersion cmd w1 = Return tt w2 ->
            Config w2 = loaded.
Proof.
  intros [HH HC] Hfile Hw Hapi Hdump saved loaded. split.
  - unfold mustWriteConfig, bind. rewrite Hfile.
    unfold getConfig, WriteFile. simpl. rewrite Hw. reflexivity.
  - intros w1 Hf He Hz.
    assert (Hload :
      mustLoadConfig url_ok QueryEncode Join CurrentVersion cmd w1
      = checkVersion url_ok QueryEncode CurrentVersion (with_Config loaded w1)).
    { unfold mustLoadConfig, bind.
      rewrite (configFile_environ w w1 file He Hfile).
      unfold ReadFile. rewrite Hf. subst saved.
      change (files (with_files ?f ?x)) with f.
      rewrite lookup_insert_eq. unfold getConfig.
      rewrite (Unmarshal_Config _ _ HH HC). unfold setConfig, flag_is_true.
      rewrite Hapi, Hdump. unfold ret, when. rewrite Hz. subst loaded.
      destruct (String.eqb api "true"), (String.eqb dump "true"); reflexivity. }
    split; [exact Hload|].
    intros w2 Hr. rewrite Hload in Hr.
    change (Config (final_world (Return tt w2)) = loaded). rewrite <- Hr.
    apply (preserves_checkVersion url_ok QueryEncode CurrentVersion
             (fun w' => Config w' = loaded));
      try (intros ? ? H; exact H). reflexivity.
Qed.
End StoreFacts.

(** ** Further properties of the requests *)

Section RequestEffects.
Variable url_ok : string -> bool.
Variable QueryEncode : gmap string string -> string.
Context {U D : Type} {codecU : JsonCodec U} {codecD : JsonCodec D}.

(** X1: the request that [doRequest] builds, when it builds one: the path
    starts with a slash and the method is one of the four; the request has
    that method, the URL [https://<host>/v2<path>], the parameters as
    given, [Accept: application/json] and the cookie of [Config]; it
    carries a body exactly when an upload is given with POST or PUT, the
    body is the encoding of the upload, and [Content-Type] is set exactly
    when there is a body. *)
Theorem request_shape path params method (upload : option U) w req w1 :
  doRequest_build url_ok QueryEncode path params method upload w = Return req w1 ->
  HasPrefix path "/" = true /\ is_method method = true
  /\ Method req = method
  /\ URL req = "https://" ++ Host (Config w) ++ "/v2" ++ path
  /\ Query req = params
  /\ Header req !! "Accept" = Some ("application/json" :: nil)
  /\ Header req !! "Cookie" = Some (Cookie (Config w) :: nil)
  /\ Header req !! "Content-Type"
     = match ReqBody req with
       | Some _ => Some ("application/json" :: nil)
       | None => None
       end
  /\ ReqBody req
     = match upload with
       | Some u => if carries_body method then MarshalIndent u else None
       | None => None
       end.
Proof.
  unfold doRequest_build. unfold_prims.
  destruct (HasPrefix path "/"); simpl; [|discriminate].
  destruct (is_method method); simpl; [|discriminate].
  destruct (url_ok _); simpl; [|discriminate].
  destruct (apiReport (Config w)), (apiDump (Config w)), upload as [u|];
    simpl; try destruct (carries_body method); simpl;
    try destruct (MarshalIndent u); simpl;
    intros H; try discriminate H; inversion H; subst; clear H; simpl;
    repeat split; reflexivity.
Qed.

(** The two halves of [doRequest] keep what the log does not show. *)
Lemma preserves_build P path params method (upload : option U) :
  log_blind P ->
  preserves P (doRequest_build url_ok QueryEncode path params method upload).
Proof. intros Hlog. unfold doRequest_build. repeat pres_step. Qed.

Lemma preserves_result P url (download : option D) nf resp :
  log_blind P -> preserves P (doRequest_result url download nf resp).
Proof. intros Hlog. unfold doRequest_result. repeat pres_step. Qed.

(** At most one request goes out. *)
Lemma doRequest_sent path params method (upload : option U)
    (download : option D) nf w :
  let w' := final_world
    (doRequest url_ok QueryEncode path params method upload download nf w) in
  sent w' = sent w \/ exists req, sent w' = req :: sent w.
Proof.
  intros w'. subst w'. unfold doRequest, bind.
  pose proof (preserves_build (fun x => sent x = sent w) path params method upload
                (fun l x Hx => Hx) w eq_refl) as Hb.
  destruct (doRequest_build _ _ _ _ _ _ w) as [req w1| |]; simpl in Hb; auto.
  unfold Do. destruct (server w1 (sent w1) req) as [resp|].
  - right. exists req. rewrite <- Hb.
    apply (preserves_result (fun x => sent x = req :: sent w1) (URL req) download nf resp
             (fun l x Hx => Hx) (with_sent (req :: sent w1) w1) eq_refl).
  - right. exists req. simpl. rewrite Hb. reflexivity.
Qed.

(** X2: however [doRequest] ends, it leaves [Config], the environment,
    the files and the standard streams alone, and it sends at most one
    request. *)
Theorem doRequest_frame path params method (upload : option U)
    (download : option D) nf w :
  let w' := final_world
    (doRequest url_ok QueryEncode path params method upload download nf w) in
  Config w' = Config w /\ environ w' = environ w /\ files w' = files w
  /\ stdin w' = stdin w /\ stdout w' = stdout w
  /\ (sent w' = sent w \/ exists req, sent w' = req :: sent w).
Proof.
  intros w'. subst w'.
  assert (Hsame : forall X (f : World -> X),
            (forall l x, f (with_log l x) = f x) ->
            (forall l x, f (with_sent l x) = f x) ->
            f (final_world
                 (doRequest url_ok QueryEncode path params method upload download nf w))
            = f w).
  { intros X f Hl Hs.
    apply (preserves_doRequest url_ok QueryEncode (fun x => f x = f w)).
    - intros l x Hx. rewrite Hl. exact Hx.
    - intros l x Hx. rewrite Hs. exact Hx.
    - reflexivity. }
  repeat (split; [apply (Hsame _ _); reflexivity|]).
  apply doRequest_sent.
Qed.

(** X3: with both diagnostic flags off a call of [doRequest] that
    returns has logged nothing; and a call that aborts has logged at least
    one line on top of what was logged before. *)
Theorem doRequest_log path params method (upload : option U)
    (download : option D) nf w :
  let run := doRequest url_ok QueryEncode path params method upload download nf w in
  (apiReport (Config w) = false -> apiDump (Config w) = false ->
   forall r w', run = Return r w' -> log w' = log w)
  /\ (aborts run = true ->
      exists msg rest, log (final_world run) = msg :: rest
                       /\ log w `suffix_of` rest).
Proof.
  intros run. subst run. split.
  - intros Hr Hd r w'.
    unfold doRequest, doRequest_build, doRequest_result, Do. unfold_prims.
    simpl.
    repeat first [rewrite Hr | rewrite Hd | step];
      intros H; try discriminate H; inversion H; reflexivity.
  - unfold doRequest, doRequest_build, doRequest_result, Do. unfold_prims.
    simpl.
    repeat step; intros H; try discriminate H; simpl;
      (eexists; eexists; split; [reflexivity|]);
      repeat apply suffix_cons_r; reflexivity.
Qed.

(** X4: [mustGetObject] and [getObject] differ on a 404 only: whenever
    [mustGetObject] returns, [getObject] returns the same target in the
    same world; and where [getObject] returns but [mustGetObject] aborts,
    [getObject] has returned [false] with the target untouched, and the
    request it sent was answered 404. *)
Theorem getObject_or_fatal path params (download : option D) w :
  (forall r w',
     mustGetObject url_ok QueryEncode path params download w = Return r w' ->
     exists b, getObject url_ok QueryEncode path params download w = Return (b, r) w')
  /\ (forall b r w',
        getObject url_ok QueryEncode path params download w = Return (b, r) w' ->
        aborts (mustGetObject url_ok QueryEncode path params download w) = true ->
        b = false /\ r = download
        /\ exists req resp,
             sent w' = req :: sent w
             /\ server w (sent w) req = Some resp
             /\ StatusCode resp = StatusNotFound).
Proof.
  unfold mustGetObject, getObject, doRequest, doRequest_build, doRequest_result, Do.
  unfold_prims. simpl. split.
  - intros r w'.
    repeat step; intros H; try discriminate H; inversion H; subst; eauto;
      exfalso;
      repeat match goal with
             | E : (_ =? _)%Z = true |- _ => apply Z.eqb_eq in E
             | E : negb (_ =? _)%Z = false |- _ =>
               rewrite negb_false_iff, Z.eqb_eq in E
             end;
      unfold StatusOK, StatusNotFound in *; lia.
  - intros b r w'.
    repeat step; intros H; try discriminate H; inversion H; subst; clear H;
      intros H; try discriminate H;
      match goal with
      | E : (_ =? StatusNotFound)%Z = true |- _ => apply Z.eqb_eq in E
      end;
      simpl; repeat split; eauto.
Qed.

(** X5: an upload that cannot be encoded aborts a POST or PUT before
    anything is sent. *)
Theorem upload_encoding_failure path params method (u : U)
    (download : option D) nf w :
  carries_body method = true -> MarshalIndent u = None ->
  let run := doRequest url_ok QueryEncode path params method (Some u) download nf w in
  aborts run = true /\ sent (final_world run) = sent w.
Proof.
  intros Hm Hu run. subst run.
  unfold doRequest, doRequest_build. unfold_prims. simpl. rewrite Hm, Hu.
  repeat step; split; reflexivity.
Qed.

(** What a POST or PUT that returns has done. *)
Lemma doRequest_upload_inv path params method (u : U) (download : option D) w b r w' :
  carries_body method = true ->
  doRequest url_ok QueryEncode path params method (Some u) download false w
    = Return (b, r) w' ->
  exists payload req resp,
    MarshalIndent u = Some payload
    /\ sent w' = req :: sent w
    /\ Method req = method
    /\ URL req = "https://" ++ Host (Config w) ++ "/v2" ++ path
    /\ ReqBody req = Some payload
    /\ Header req !! "Content-Type" = Some ("application/json" :: nil)
    /\ server w (sent w) req = Some resp
    /\ StatusCode resp = StatusOK
    /\ match download with
       | Some d => exists d', Decode (Body resp) d = Some d' /\ r = Some d'
       | None => r = None
       end.
Proof.
  intros Hm.
  unfold doRequest, doRequest_build, doRequest_result, Do.
  unfold_prims. simpl. rewrite Hm.
  repeat step; intros Hr; try discriminate; inversion Hr; subst; clear Hr;
    simpl;
    match goal with
    | H : negb (_ =? StatusOK)%Z = false |- _ =>
      rewrite negb_false_iff, Z.eqb_eq in H
    end;
    eexists; eexists; eexists;
    repeat split; try reflexivity; try eassumption; eauto.
Qed.

(** X6: when [mustPostObject] or [mustPutObject] returns on an upload,
    exactly one request went out, a POST or a PUT of the path, with the
    encoding of the upload as its body and [Content-Type:
    application/json]; it was answered 200, and a download target, if
    there is one, holds what the body of the answer decodes to. *)
Theorem must_upload_returns path params (u : U) (download : option D) w r w' :
  mustPostObject url_ok QueryEncode path params (Some u) download w = Return r w'
  \/ mustPutObject url_ok QueryEncode path params (Some u) download w = Return r w' ->
  exists payload req resp,
    MarshalIndent u = Some payload
    /\ sent w' = req :: sent w
    /\ (Method req = "POST" \/ Method req = "PUT")
    /\ URL req = "https://" ++ Host (Config w) ++ "/v2" ++ path
    /\ ReqBody req = Some payload
    /\ Header req !! "Content-Type" = Some ("application/json" :: nil)
    /\ server w (sent w) req = Some resp
    /\ StatusCode resp = StatusOK
    /\ match download with
       | Some d => exists d', Decode (Body resp) d = Some d' /\ r = Some d'
       | None => r = None
       end.
Proof.
  unfold mustPostObject, mustPutObject, bind, ret.
  intros [H|H];
    match type of H with
    | context [doRequest _ _ _ _ ?m _ _ _ _] =>
      destruct (doRequest url_ok QueryEncode path params m (Some u) download false w)
        as [[b r0] w0| |] eqn:Hd; try discriminate H
    end;
    inversion H; subst; clear H;
    apply doRequest_upload_inv in Hd; try reflexivity;
    destruct Hd as (payload & req & resp & H1 & H2 & H3 & H4 & H5 & H6 & H7 & H8 & H9);
    exists payload, req, resp; simpl; auto 12.
Qed.
End RequestEffects.

(** ** Further properties of the commands *)

Section CommandFacts.
Variable url_ok : string -> bool.
Variable QueryEncode : gmap string string -> string.
Variable Join : string -> string -> string.
Variable CookieName : string.
Variable CurrentVersion : types_Version.
Context {Version_codec : JsonCodec types_Version}.
Variable User : Type.
Variable User_zero : User.
Variable Name : User -> string.
Context {User_codec : JsonCodec User}.

(** What a [mustGetObject] that returns has done. *)
Lemma mustGetObject_inv {D : Type} {codecD : JsonCodec D} path (d : D) w r w' :
  mustGetObject url_ok QueryEncode path ∅ (Some d) w = Return r w' ->
  exists req resp d',
    traffic_only w w' /\ sent w' = req :: sent w
    /\ is_get (Config w) path req
    /\ server w (sent w) req = Some resp
    /\ StatusCode resp = StatusOK
    /\ Decode (Body resp) d = Some d' /\ r = Some d'.
Proof.
  unfold mustGetObject, doRequest, doRequest_build, doRequest_result, Do.
  unfold_prims. simpl.
  repeat step; intros Hr; try discriminate; inversion Hr; subst; clear Hr;
    simpl;
    match goal with
    | H : negb (_ =? StatusOK)%Z = false |- _ =>
      rewrite negb_false_iff, Z.eqb_eq in H
    end;
    eexists; eexists; eexists; unfold traffic_only, is_get; simpl;
    repeat split; try reflexivity; eassumption.
Qed.

(** What a [checkVersion] that returns has done. *)
Lemma checkVersion_inv w w' :
  checkVersion url_ok QueryEncode CurrentVersion w = Return tt w' ->
  exists req resp descriptor current required recommended,
    traffic_only w w' /\ sent w' = req :: sent w
    /\ is_get (Config w) "/version" req
    /\ server w (sent w) req = Some resp
    /\ StatusCode resp = StatusOK
    /\ Decode (Body resp) Version_zero = Some descriptor
    /\ semver.Parse (Version CurrentVersion) = Some current
    /\ semver.Parse (GrindVersionRequired descriptor) = Some required
    /\ semver.Parse (GrindVersionRecommended descriptor) = Some recommended
    /\ semver.GT required current = false.
Proof.
  unfold checkVersion, bind.
  destruct (mustGetObject _ _ _ _ _ w) as [r w1| |] eqn:Hget; try discriminate.
  apply mustGetObject_inv in Hget.
  destruct Hget as (req & resp & d' & Ht & Hs & Hg & Hsrv & Hok & Hd & ->).
  simpl. unfold checkVersion_compare, MustParse. unfold_prims.
  destruct (semver.Parse (Version CurrentVersion)) as [current|] eqn:Hc;
    [|discriminate].
  destruct (semver.Parse (GrindVersionRequired d')) as [required|] eqn:Hr;
    [|discriminate].
  destruct (semver.GT required current) eqn:Hgt; simpl; [discriminate|].
  destruct (semver.Parse (GrindVersionRecommended d')) as [recommended|] eqn:Hm;
    [|discriminate].
  destruct (semver.GT recommended current); simpl; intros H; inversion H; subst;
    exists req, resp, d', current, required, recommended;
    unfold traffic_only in *; simpl;
    repeat split; first [assumption | reflexivity | apply Ht | apply Hg].
Qed.

(** X7: when [checkVersion] returns, nothing has changed but what was
    sent and logged: one GET of [/version] went out with the host and
    cookie of [Config] and was answered 200, the answer decoded, the
    client's version and the required one parse, the required version is
    at most the client's, and the recommended one parses. *)
Theorem checkVersion_returns_compatible w w' :
  checkVersion url_ok QueryEncode CurrentVersion w = Return tt w' ->
  traffic_only w w'
  /\ exists req resp descriptor current required,
       sent w' = req :: sent w
       /\ is_get (Config w) "/version" req
       /\ server w (sent w) req = Some resp
       /\ StatusCode resp = StatusOK
       /\ Decode (Body resp) Version_zero = Some descriptor
       /\ semver.Parse (Version CurrentVersion) = Some current
       /\ semver.Parse (GrindVersionRequired descriptor) = Some required
       /\ semver.LTE required current = true
       /\ semver.Parse (GrindVersionRecommended descriptor) <> None.
Proof.
  intros H. apply checkVersion_inv in H.
  destruct H as (req & resp & d & c & r & m & Ht & Hs & Hg & Hsrv & Hok & Hd
                 & Hc & Hr & Hm & Hgt).
  split; [exact Ht|].
  exists req, resp, d, c, r. rewrite GT_LTE, negb_false_iff in Hgt.
  rewrite Hm. repeat split; try assumption; try apply Hg. discriminate.
Qed.

(** X8: once the descriptor is fetched, a version that is no semantic
    version is a panic, in the order of the code: the client's, then the
    required one; a required version above the client's is fatal whatever
    the recommended one is; and only then a malformed recommended version
    panics.  The panics log nothing. *)
Theorem checkVersion_malformed w descriptor w1 :
  mustGetObject url_ok QueryEncode "/version" ∅ (Some Version_zero) w
    = Return (Some descriptor) w1 ->
  let run := checkVersion url_ok QueryEncode CurrentVersion w in
  (semver.Parse (Version CurrentVersion) = None -> run = Panic w1)
  /\ forall current,
       semver.Parse (Version CurrentVersion) = Some current ->
       (semver.Parse (GrindVersionRequired descriptor) = None -> run = Panic w1)
       /\ forall required,
            semver.Parse (GrindVersionRequired descriptor) = Some required ->
            (semver.GT required current = true -> exists w', run = Fatal w')
            /\ (semver.GT required current = false ->
                semver.Parse (GrindVersionRecommended descriptor) = None ->
                run = Panic w1).
Proof.
  intros Hget run. subst run. unfold checkVersion, bind. rewrite Hget. simpl.
  unfold checkVersion_compare, MustParse, bind, panic.
  unfold when, ret, Printf, Fatalf.
  split.
  - intros ->. reflexivity.
  - intros current ->. simpl. split.
    + intros ->. reflexivity.
    + intros required ->. simpl. split.
      * intros ->. simpl. eauto.
      * intros -> ->. reflexivity.
Qed.

(** Where the config file is: under [HOME], or under [USERPROFILE] when
    [HOME] is empty or not set. *)
Lemma configFile_inv w file w0 :
  configFile Join w = Return file w0 ->
  w0 = w
  /\ exists home,
       home <> EmptyString /\ file = Join home perUserDotFile
       /\ (home = default EmptyString (environ w !! "HOME")
           \/ (default EmptyString (environ w !! "HOME") = EmptyString
               /\ home = default EmptyString (environ w !! "USERPROFILE"))).
Proof.
  unfold configFile, Getenv. unfold_prims. simpl.
  destruct (String.eqb (default EmptyString (environ w !! "HOME")) EmptyString) eqn:Hh;
    simpl.
  - destruct (String.eqb (default EmptyString (environ w !! "USERPROFILE")) EmptyString)
      eqn:Hu; simpl; intros H; [discriminate H|].
    injection H as Hfile Hw. subst w0 file.
    apply String.eqb_eq in Hh. apply String.eqb_neq in Hu.
    split; [reflexivity|].
    exists (default EmptyString (environ w !! "USERPROFILE")).
    split; [assumption|]. split; [reflexivity|]. right. split; [assumption | reflexivity].
  - intros H. rewrite Hh in H. injection H as Hfile Hw. subst w0 file.
    apply String.eqb_neq in Hh.
    split; [reflexivity|].
    exists (default EmptyString (environ w !! "HOME")).
    split; [assumption|]. split; [reflexivity|]. left. reflexivity.
Qed.

(** A [mustLoadConfig] that returns is the gate on the merged config. *)
Lemma mustLoadConfig_inv cmd w w' :
  mustLoadConfig url_ok QueryEncode Join CurrentVersion cmd w = Return tt w' ->
  exists file raw c' api dump,
    configFile Join w = Return file w
    /\ files w !! file = Some raw
    /\ Unmarshal raw (Config w) = Some c'
    /\ Flags cmd !! "api" = Some api
    /\ Flags cmd !! "api-dump" = Some dump
    /\ checkVersion url_ok QueryEncode CurrentVersion
         (with_Config (merge_flags (Config w) c' api dump) w)
       = Return tt w'.
Proof.
  unfold mustLoadConfig, bind.
  destruct (configFile Join w) as [file w0| |] eqn:Hf; try discriminate.
  destruct (configFile_inv _ _ _ Hf) as [-> _].
  unfold ReadFile. destruct (files w !! file) as [raw|] eqn:Hraw; [|discriminate].
  unfold getConfig.
  destruct (Unmarshal raw (Config w)) as [c'|] eqn:Hu; [|discriminate].
  destruct (Unmarshal_Config_flags _ _ _ Hu) as [Hr Hd].
  unfold setConfig, flag_is_true. simpl.
  destruct (Flags cmd !! "api") as [api|] eqn:Hapi; [|discriminate].
  unfold ret, when.
  destruct (Flags cmd !! "api-dump") as [dump|] eqn:Hdump;
    [| destruct (String.eqb api "true"); discriminate].
  intros H. exists file, raw, c', api, dump.
  repeat (split; [reflexivity || assumption|]).
  rewrite <- H. unfold merge_flags. rewrite <- Hr, <- Hd.
  destruct c' as [h k r d]. simpl.
  destruct (String.eqb api "true"), (String.eqb dump "true"), r, d; reflexivity.
Qed.

(** The gate sends at most one request. *)
Lemma checkVersion_sent w :
  let w' := final_world (checkVersion url_ok QueryEncode CurrentVersion w) in
  sent w' = sent w \/ exists req, sent w' = req :: sent w.
Proof.
  intros w'. subst w'. unfold checkVersion, mustGetObject, bind.
  pose proof (doRequest_sent url_ok QueryEncode (U := Empty_set) "/version" ∅ "GET"
                None (Some Version_zero) false w) as Hd.
  simpl in Hd.
  destruct (doRequest _ _ _ _ _ _ _ _ w) as [[b r] w1| |]; simpl in *; auto.
  pose proof (preserves_checkVersion_compare CurrentVersion (fun x => sent x = sent w1)
                (fun l x Hx => Hx) (default Version_zero r) w1 eq_refl) as Hc.
  rewrite Hc. exact Hd.
Qed.

(** [mustLoadConfig] either gets to the gate, or stops with nothing
    sent. *)
Lemma mustLoadConfig_cases cmd w :
  let run := mustLoadConfig url_ok QueryEncode Join CurrentVersion cmd w in
  (exists c,
     run = checkVersion url_ok QueryEncode CurrentVersion (with_Config c w)
     /\ (apiReport (Config w) = true -> apiReport c = true)
     /\ (apiDump (Config w) = true -> apiDump c = true))
  \/ (sent (final_world run) = sent w
      /\ (apiReport (Config w) = true -> apiReport (Config (final_world run)) = true)
      /\ (apiDump (Config w) = true -> apiDump (Config (final_world run)) = true)).
Proof.
  intros run. subst run. unfold mustLoadConfig, bind.
  destruct (configFile Join w) as [file w0| |] eqn:Hf.
  - destruct (configFile_inv _ _ _ Hf) as [-> _].
    unfold ReadFile. destruct (files w !! file) as [raw|] eqn:Hraw;
      [| right; simpl; auto].
    unfold getConfig.
    destruct (Unmarshal raw (Config w)) as [c'|] eqn:Hu; [| right; simpl; auto].
    destruct (Unmarshal_Config_flags _ _ _ Hu) as [Hr Hd].
    unfold setConfig, flag_is_true. simpl.
    destruct (Flags cmd !! "api") as [api|] eqn:Hapi;
      [| right; simpl; rewrite Hr, Hd; auto].
    unfold ret, when.
    destruct (Flags cmd !! "api-dump") as [dump|] eqn:Hdump.
    + left.
      destruct (String.eqb api "true"), (String.eqb dump "true"); simpl;
        eexists; (split; [reflexivity|]); simpl; rewrite ?Hr, ?Hd; auto.
    + right. destruct (String.eqb api "true"); simpl; rewrite ?Hr, ?Hd; auto.
  - right.
    pose proof (preserves_configFile Join (fun x => sent x = sent w /\ Config x = Config w)
                  (fun l x Hx => Hx) w (conj eq_refl eq_refl)) as Hp.
    rewrite Hf in Hp. simpl in *. destruct Hp as [-> ->]. auto.
  - right.
    pose proof (preserves_configFile Join (fun x => sent x = sent w /\ Config x = Config w)
                  (fun l x Hx => Hx) w (conj eq_refl eq_refl)) as Hp.
    rewrite Hf in Hp. simpl in *. destruct Hp as [-> ->]. auto.
Qed.

(** X20: however [mustLoadConfig] ends, it leaves the environment, the
    files and the standard streams alone, sends at most one request, and
    turns no diagnostic flag off. *)
Theorem mustLoadConfig_frame cmd w :
  let w' := final_world (mustLoadConfig url_ok QueryEncode Join CurrentVersion cmd w) in
  environ w' = environ w /\ files w' = files w
  /\ stdin w' = stdin w /\ stdout w' = stdout w
  /\ (sent w' = sent w \/ exists req, sent w' = req :: sent w)
  /\ (apiReport (Config w) = true -> apiReport (Config w') = true)
  /\ (apiDump (Config w) = true -> apiDump (Config w') = true).
Proof.
  intros w'. subst w'.
  assert (Hsame : forall X (f : World -> X),
            (forall l x, f (with_log l x) = f x) ->
            (forall l x, f (with_sent l x) = f x) ->
            (forall c x, f (with_Config c x) = f x) ->
            f (final_world (mustLoadConfig url_ok QueryEncode Join CurrentVersion cmd w))
            = f w).
  { intros X f Hl Hs Hc.
    apply (preserves_mustLoadConfig url_ok QueryEncode Join CurrentVersion
             (fun x => f x = f w)).
    - intros l x Hx. rewrite Hl. exact Hx.
    - intros l x Hx. rewrite Hs. exact Hx.
    - intros c x Hx. rewrite Hc. exact Hx.
    - reflexivity. }
  repeat (split; [apply (Hsame _ _); reflexivity|]).
  destruct (mustLoadConfig_cases cmd w) as [(c & -> & Hr & Hd)|(Hs & Hr & Hd)].
  - pose proof (preserves_checkVersion url_ok QueryEncode CurrentVersion
                  (fun x => Config x = c) (fun l x Hx => Hx) (fun l x Hx => Hx)
                  (with_Config c w) eq_refl) as HC.
    simpl in HC. rewrite HC. split; [|split; assumption].
    apply (checkVersion_sent (with_Config c w)).
  - split; [left; exact Hs|]. split; assumption.
Qed.

(** X11: when [mustLoadConfig] returns, the config file was read and
    decoded, both flags are defined, and [Config] holds the host and the
    cookie of the file, [apiReport] on if it was on or one of the two flags
    is [true], [apiDump] on if it was on or [--api-dump] is [true]; the
    files and the standard streams are as they were. *)
Theorem mustLoadConfig_returns cmd w w' :
  mustLoadConfig url_ok QueryEncode Join CurrentVersion cmd w = Return tt w' ->
  exists file raw c' api dump,
    configFile Join w = Return file w
    /\ files w !! file = Some raw
    /\ Unmarshal raw (Config w) = Some c'
    /\ Flags cmd !! "api" = Some api
    /\ Flags cmd !! "api-dump" = Some dump
    /\ Config w' = merge_flags (Config w) c' api dump
    /\ files w' = files w /\ stdin w' = stdin w /\ stdout w' = stdout w.
Proof.
  intros H. apply mustLoadConfig_inv in H.
  destruct H as (file & raw & c' & api & dump & Hf & Hraw & Hu & Ha & Hd & Hcv).
  apply checkVersion_inv in Hcv.
  destruct Hcv as (req & resp & d & c & r & m & Ht & _).
  destruct Ht as (HC & _ & HF & _ & _ & Hin & Hout).
  exists file, raw, c', api, dump. simpl in *. auto 10.
Qed.

(** X12: when [mustLoadConfig] returns, the version gate has been
    passed with the config just loaded: the one request sent is a GET of
    [/version] with the loaded host and cookie, it was answered 200, and
    the version the server requires is at most the client's. *)
Theorem mustLoadConfig_gated cmd w w' :
  mustLoadConfig url_ok QueryEncode Join CurrentVersion cmd w = Return tt w' ->
  exists req resp descriptor current required,
    sent w' = req :: sent w
    /\ is_get (Config w') "/version" req
    /\ server w (sent w) req = Some resp
    /\ StatusCode resp = StatusOK
    /\ Decode (Body resp) Version_zero = Some descriptor
    /\ semver.Parse (Version CurrentVersion) = Some current
    /\ semver.Parse (GrindVersionRequired descriptor) = Some required
    /\ semver.LTE required current = true.
Proof.
  intros H. apply mustLoadConfig_inv in H.
  destruct H as (file & raw & c' & api & dump & Hf & Hraw & Hu & Ha & Hd & Hcv).
  apply checkVersion_inv in Hcv.
  destruct Hcv as (req & resp & d & c & r & m & Ht & Hs & Hg & Hsrv & Hok & Hdec
                   & Hc & Hr & Hm & Hgt).
  destruct Ht as (HC & _). simpl in *.
  rewrite GT_LTE, negb_false_iff in Hgt.
  exists req, resp, d, c, r. rewrite HC. auto 10.
Qed.


(** X15: saving twice is saving once. *)
Theorem mustWriteConfig_twice w :
  bind (mustWriteConfig Join) (fun _ => mustWriteConfig Join) w
  = mustWriteConfig Join w.
Proof.
  unfold mustWriteConfig, bind.
  destruct (configFile Join w) as [file w0| |] eqn:Hf; try reflexivity.
  destruct (configFile_inv _ _ _ Hf) as [-> _].
  unfold getConfig, WriteFile.
  destruct (MarshalIndent (Config w)) as [raw|] eqn:Hm; [|reflexivity].
  destruct (write_denied w file) eqn:Hw; [reflexivity|].
  unfold when, ret. change (negb true) with false. cbv beta iota.
  rewrite (configFile_environ Join w (with_files _ w) file eq_refl Hf).
  change (Config (with_files ?f w)) with (Config w).
  rewrite Hm.
  change (write_denied (with_files ?f w)) with (write_denied w).
  rewrite Hw. change (negb true) with false. cbv beta iota.
  unfold with_files. simpl.
  rewrite insert_insert_eq. reflexivity.
Qed.

(** X16: the cookie is accepted exactly when the next scan of the
    standard input gives, without an error, one token that starts with
    [CookieName=]; that token is the cookie, and that one scan is all that
    was read.  An input that is at its end is not accepted. *)
Theorem read_cookie_accepts w cookie w' :
  read_cookie CookieName w = Return cookie w'
  <-> exists sc rest,
        stdin w = sc :: rest /\ scan_err sc = false /\ count sc = 1%Z
        /\ HasPrefix (token sc) (CookieName ++ "=") = true
        /\ cookie = token sc /\ w' = with_stdin rest w.
Proof.
  unfold read_cookie, Scanln. unfold_prims. split.
  - destruct (stdin w) as [|sc rest] eqn:Hin; simpl; [discriminate|].
    destruct (scan_err sc) eqn:He; simpl; [discriminate|].
    destruct (count sc =? 1)%Z eqn:Hc; simpl; [|discriminate].
    destruct (HasPrefix (token sc) (CookieName ++ "=")) eqn:Hp; simpl;
      [|discriminate].
    intros H. inversion H; subst. apply Z.eqb_eq in Hc.
    exists sc, rest. auto 10.
  - intros (sc & rest & Hin & He & Hc & Hp & -> & ->).
    rewrite Hin. simpl. rewrite He. simpl.
    apply Z.eqb_eq in Hc. rewrite Hc. simpl. rewrite Hp. reflexivity.
Qed.

(** What a [read_cookie] that returns has read. *)
Lemma read_cookie_inv w cookie w' :
  read_cookie CookieName w = Return cookie w' ->
  HasPrefix cookie (CookieName ++ "=") = true
  /\ exists sc rest, stdin w = sc :: rest /\ w' = with_stdin rest w.
Proof.
  unfold read_cookie, Scanln. unfold_prims.
  destruct (stdin w) as [|sc rest] eqn:Hin; simpl; [discriminate|].
  destruct (scan_err sc) eqn:He; simpl; [discriminate|].
  destruct (count sc =? 1)%Z eqn:Hc; simpl; [|discriminate].
  destruct (HasPrefix (token sc) (CookieName ++ "=")) eqn:Hp; simpl;
    [|discriminate].
  intros H. inversion H; subst. split; [assumption|]. eauto.
Qed.

(** What a [mustWriteConfig] that returns has written. *)
Lemma mustWriteConfig_inv w w' :
  mustWriteConfig Join w = Return tt w' ->
  exists file,
    configFile Join w = Return file w
    /\ w' = with_files (<[file := Config_MarshalIndent (Config w) ++ str1 newline]> (files w)) w.
Proof.
  unfold mustWriteConfig, bind.
  destruct (configFile Join w) as [file w0| |] eqn:Hf; try discriminate.
  destruct (configFile_inv _ _ _ Hf) as [-> _].
  unfold getConfig, WriteFile. simpl.
  destruct (write_denied w file); simpl; [discriminate|].
  intros H. inversion H. eauto.
Qed.

(** The steps of a [CommandInit] that returns. *)
Lemma CommandInit_inv cmd w w' :
  CommandInit url_ok QueryEncode Join CookieName CurrentVersion User User_zero Name cmd w
    = Return tt w' ->
  exists w1 cookie w2 w3 user w4 w5,
    mustLoadConfig url_ok QueryEncode Join CurrentVersion cmd w = Return tt w1
    /\ read_cookie CookieName (with_stdout (prompt CookieName (loaded_host (Config w1)) :: stdout w1) w1)
       = Return cookie w2
    /\ checkVersion url_ok QueryEncode CurrentVersion
         (with_Config {| Host := loaded_host (Config w1); Cookie := cookie;
                         apiReport := apiReport (Config w1);
                         apiDump := apiDump (Config w1) |} w2) = Return tt w3
    /\ mustGetObject url_ok QueryEncode "/users/me" ∅ (Some User_zero) w3 = Return user w4
    /\ mustWriteConfig Join w4 = Return tt w5
    /\ w' = with_log (("cookie verified and saved: welcome " ++ Name (default User_zero user)) :: log w5) w5.
Proof.
  unfold CommandInit, bind.
  destruct (mustLoadConfig _ _ _ _ cmd w) as [[] w1| |] eqn:H1; try discriminate.
  unfold getConfig at 1. unfold Println. fold (loaded_host (Config w1)).
  destruct (read_cookie CookieName _) as [cookie w2| |] eqn:H2; try discriminate.
  assert (HC : Config w2 = Config w1).
  { apply read_cookie_inv in H2. destruct H2 as (_ & sc & rest & _ & ->). reflexivity. }
  unfold getConfig, setConfig. rewrite HC.
  destruct (checkVersion _ _ _ _) as [[] w3| |] eqn:H3; try discriminate.
  destruct (mustGetObject _ _ _ _ _ w3) as [user w4| |] eqn:H4; try discriminate.
  destruct (mustWriteConfig Join w4) as [[] w5| |] eqn:H5; try discriminate.
  unfold Printf. intros H. inversion H.
  exists w1, cookie, w2, w3, user, w4, w5. auto 10.
Qed.

Lemma loaded_host_nonempty c : loaded_host c <> EmptyString.
Proof.
  unfold loaded_host. destruct (String.eqb (Host c) EmptyString) eqn:E.
  - discriminate.
  - intros H. rewrite H in E. discriminate.
Qed.


(** X17: when [CommandInit] returns, the config file, and no other file,
    has been written, with the encoding of the [Config] the run ends with;
    the cookie of that [Config] starts with [CookieName=], its host is not
    empty, and the instructions printed, once, name that host. *)
Theorem CommandInit_saved cmd w w' :
  CommandInit url_ok QueryEncode Join CookieName CurrentVersion User User_zero Name cmd w
    = Return tt w' ->
  exists file,
    configFile Join w = Return file w
    /\ files w' = <[file := Config_MarshalIndent (Config w') ++ str1 newline]> (files w)
    /\ HasPrefix (Cookie (Config w')) (CookieName ++ "=") = true
    /\ Host (Config w') <> EmptyString
    /\ stdout w' = prompt CookieName (Host (Config w')) :: stdout w.
Proof.
  intros H. apply CommandInit_inv in H.
  destruct H as (w1 & cookie & w2 & w3 & user & w4 & w5 & H1 & H2 & H3 & H4 & H5 & ->).
  apply mustLoadConfig_inv in H1.
  destruct H1 as (file0 & raw & c' & api & dump & Hf & _ & _ & _ & _ & Hcv).
  apply checkVersion_inv in Hcv.
  destruct Hcv as (? & ? & ? & ? & ? & ? & (_ & He1 & Hf1 & _ & _ & _ & Ho1) & _).
  apply read_cookie_inv in H2. destruct H2 as (Hp & sc & rest & _ & ->).
  apply checkVersion_inv in H3.
  destruct H3 as (? & ? & ? & ? & ? & ? & (HC3 & He3 & Hf3 & _ & _ & _ & Ho3) & _).
  apply mustGetObject_inv in H4.
  destruct H4 as (? & ? & ? & (HC4 & He4 & Hf4 & _ & _ & _ & Ho4) & _).
  apply mustWriteConfig_inv in H5. destruct H5 as (file & Hfile & ->).
  simpl in *.
  exists file. split.
  { apply (configFile_environ Join w4 w file); [congruence | assumption]. }
  rewrite HC4, HC3. simpl.
  split; [congruence|]. split; [assumption|].
  split; [apply loaded_host_nonempty|]. congruence.
Qed.


End CommandFacts.

(** The saved config is the first value of the file, whatever follows. *)
Lemma first_value_Config_tail c tail :
  utf8_valid (Host c) = true -> utf8_valid (Cookie c) = true ->
  Json.first_value (Config_MarshalIndent c ++ tail)
  = Json.Parsed
      (Json.JObject (("host", Json.JString (Host c))
                     :: ("cookie", Json.JString (Cookie c)) :: nil))
      tail.
Proof.
  intros HH HC. rewrite Config_MarshalIndent_text.
  unfold Json.first_value, Json.fuel_for.
  change (Json.skip_space (Config_text ?h ?c ?t)) with (Config_text h c t).
  change (String.length (Config_text ?h ?c ?t))
    with (S (S (String.length ("    " ++ member_text "host" h
         (String ","%char (String newline ("    "
            ++ member_text "cookie" c
                 (String newline (String "}"%char t))))))))).
  apply value_Config_text; assumption.
Qed.

Lemma Unmarshal_Config_tail c c0 tail :
  well_formed c ->
  Unmarshal (Config_MarshalIndent c ++ tail) c0
  = match Json.skip_space tail with
    | EmptyString => Some {| Host := Host c; Cookie := Cookie c;
                             apiReport := apiReport c0; apiDump := apiDump c0 |}
    | String _ _ => None
    end.
Proof.
  intros [HH HC]. unfold Unmarshal, Config_codec, Json.Unmarshal_struct.
  rewrite (first_value_Config_tail c tail HH HC).
  destruct (Json.skip_space tail); reflexivity.
Qed.

Section FileFacts.
Variable url_ok : string -> bool.
Variable QueryEncode : gmap string string -> string.
Variable Join : string -> string -> string.
Variable CurrentVersion : types_Version.
Context {Version_codec : JsonCodec types_Version}.

(** X13: a config file that holds a saved config followed by more text
    is rejected when that text is anything but white space: the load is
    fatal with the two lines logged, and nothing is sent.  Followed by
    white space only, it loads as the saved config does. *)
Theorem config_file_tail cmd w file c tail :
  well_formed c ->
  configFile Join w = Return file w ->
  files w !! file = Some (Config_MarshalIndent c ++ tail) ->
  let load := mustLoadConfig url_ok QueryEncode Join CurrentVersion cmd w in
  (Json.skip_space tail <> EmptyString ->
   load = Fatal (with_log (("you may wish to try deleting the file and running "
                            ++ str1 dquote ++ "grind init" ++ str1 dquote ++ " again")
                           :: ("failed to parse " ++ file ++ ": %v") :: log w) w))
  /\ (Json.skip_space tail = EmptyString ->
      forall api dump,
        Flags cmd !! "api" = Some api ->
        Flags cmd !! "api-dump" = Some dump ->
        load = checkVersion url_ok QueryEncode CurrentVersion
                 (with_Config (merge_flags (Config w) c api dump) w)).
Proof.
  intros Hwf Hfile Hraw load. subst load.
  unfold mustLoadConfig, bind. rewrite Hfile. unfold ReadFile. rewrite Hraw.
  unfold getConfig. rewrite (Unmarshal_Config_tail _ _ _ Hwf). split.
  - intros Ht. destruct (Json.skip_space tail); [congruence|]. reflexivity.
  - intros Ht api dump Hapi Hdump. rewrite Ht.
    unfold setConfig, flag_is_true. rewrite Hapi, Hdump. unfold ret, when.
    unfold merge_flags.
    destruct (String.eqb api "true"), (String.eqb dump "true"),
      (apiReport (Config w)), (apiDump (Config w)); reflexivity.
Qed.
End FileFacts.

(** ** The order of versions, and the gate *)

(** [Compare] is a total preorder: equal components can be exchanged, and
    lower is transitive, at each level of the comparison. *)
Lemma cmpN_zero a b : semver.cmpN a b = 0%Z <-> a = b.
Proof.
  unfold semver.cmpN. destruct (N.eqb_spec a b).
  - tauto.
  - destruct (b <? a)%N; split; intros H; try discriminate H; contradiction.
Qed.

Lemma cmpN_less a b : semver.cmpN a b = (-1)%Z <-> (a < b)%N.
Proof.
  unfold semver.cmpN. destruct (N.eqb_spec a b).
  - split; [discriminate | lia].
  - destruct (N.ltb_spec b a); split; intros Hx; try discriminate Hx; try lia;
      reflexivity.
Qed.

Lemma ascii_compare_refl a : Ascii.compare a a = Eq.
Proof. unfold Ascii.compare. apply N.compare_refl. Qed.

Lemma string_compare_refl s : String.compare s s = Eq.
Proof. induction s as [|a s IH]; simpl; [reflexivity|]. rewrite ascii_compare_refl. exact IH. Qed.

Lemma string_compare_trans : forall s t u,
  String.compare s t = Lt -> String.compare t u = Lt -> String.compare s u = Lt.
Proof.
  induction s as [|a s IH]; intros [|b t] [|c u]; simpl; try discriminate; auto.
  unfold Ascii.compare.
  destruct (N.compare_spec (N_of_ascii a) (N_of_ascii b)) as [Hab|Hab|Hab];
    try discriminate;
    destruct (N.compare_spec (N_of_ascii b) (N_of_ascii c)) as [Hbc|Hbc|Hbc];
    try discriminate; intros H1 H2.
  - rewrite Hab, Hbc, N.compare_refl. eauto.
  - rewrite Hab. apply N.compare_lt_iff in Hbc. rewrite Hbc. reflexivity.
  - rewrite <- Hbc. apply N.compare_lt_iff in Hab. rewrite Hab. reflexivity.
  - assert (H : (N_of_ascii a < N_of_ascii c)%N) by lia.
    apply N.compare_lt_iff in H. rewrite H. reflexivity.
Qed.

Lemma PR_zero_l x y z :
  semver.PRVersion_Compare x y = 0%Z ->
  semver.PRVersion_Compare x z = semver.PRVersion_Compare y z.
Proof.
  unfold semver.PRVersion_Compare.
  destruct (semver.IsNum x), (semver.IsNum y), (semver.IsNum z); simpl;
    try discriminate; try reflexivity.
  - intros H. apply cmpN_zero in H. rewrite H. reflexivity.
  - destruct (String.compare (semver.VersionStr x) (semver.VersionStr y)) eqn:E;
      try discriminate.
    apply String.compare_eq_iff in E. rewrite E. reflexivity.
Qed.

Lemma PR_zero_r x y z :
  semver.PRVersion_Compare y z = 0%Z ->
  semver.PRVersion_Compare x y = semver.PRVersion_Compare x z.
Proof.
  unfold semver.PRVersion_Compare.
  destruct (semver.IsNum x), (semver.IsNum y), (semver.IsNum z); simpl;
    try discriminate; try reflexivity.
  - intros H. apply cmpN_zero in H. rewrite H. reflexivity.
  - destruct (String.compare (semver.VersionStr y) (semver.VersionStr z)) eqn:E;
      try discriminate.
    apply String.compare_eq_iff in E. rewrite E. reflexivity.
Qed.

Lemma PR_less_trans x y z :
  semver.PRVersion_Compare x y = (-1)%Z ->
  semver.PRVersion_Compare y z = (-1)%Z ->
  semver.PRVersion_Compare x z = (-1)%Z.
Proof.
  unfold semver.PRVersion_Compare.
  destruct (semver.IsNum x), (semver.IsNum y), (semver.IsNum z); simpl;
    try discriminate; try reflexivity.
  - rewrite !cmpN_less. lia.
  - destruct (String.compare (semver.VersionStr x) (semver.VersionStr y)) eqn:E1;
      try discriminate.
    destruct (String.compare (semver.VersionStr y) (semver.VersionStr z)) eqn:E2;
      try discriminate.
    rewrite (string_compare_trans _ _ _ E1 E2). reflexivity.
Qed.

Ltac pr_cases x y :=
  let H := fresh "H" in
  destruct (PRVersion_Compare_range x y) as [H|[H|H]]; rewrite ?H in *; simpl in *.

Lemma Pre_zero_l : forall x y z,
  semver.Pre_Compare x y = 0%Z ->
  semver.Pre_Compare x z = semver.Pre_Compare y z.
Proof.
  induction x as [|a x IH]; intros [|b y] [|c z]; simpl; try discriminate;
    try (intros; reflexivity).
  pr_cases a b; try discriminate. intros Hxy.
    rewrite (PR_zero_l a b c H). rewrite (IH y z Hxy). reflexivity.
Qed.

Lemma Pre_zero_r : forall x y z,
  semver.Pre_Compare y z = 0%Z ->
  semver.Pre_Compare x y = semver.Pre_Compare x z.
Proof.
  induction x as [|a x IH]; intros [|b y] [|c z]; simpl; try discriminate;
    try (intros; reflexivity).
  pr_cases b c; try discriminate. intros Hyz.
    rewrite (PR_zero_r a b c H). rewrite (IH y z Hyz). reflexivity.
Qed.

Lemma Pre_less_trans : forall x y z,
  semver.Pre_Compare x y = (-1)%Z ->
  semver.Pre_Compare y z = (-1)%Z ->
  semver.Pre_Compare x z = (-1)%Z.
Proof.
  induction x as [|a x IH]; intros [|b y] [|c z]; simpl; try discriminate;
    try (intros; reflexivity).
  destruct (PRVersion_Compare_range a b) as [Hab|[Hab|Hab]]; rewrite Hab; simpl;
    try discriminate;
    destruct (PRVersion_Compare_range b c) as [Hbc|[Hbc|Hbc]]; rewrite Hbc; simpl;
    try discriminate; intros H1 H2.
  - rewrite (PR_zero_l a b c Hab), Hbc. simpl. eauto.
  - rewrite (PR_zero_l a b c Hab), Hbc. reflexivity.
  - rewrite <- (PR_zero_r a b c Hbc), Hab. reflexivity.
  - rewrite (PR_less_trans a b c Hab Hbc). reflexivity.
Qed.

Lemma Pre_le_trans x y z :
  (semver.Pre_Compare x y <= 0)%Z -> (semver.Pre_Compare y z <= 0)%Z ->
  (semver.Pre_Compare x z <= 0)%Z.
Proof.
  destruct (Pre_Compare_range x y) as [Hxy|[Hxy|Hxy]];
    destruct (Pre_Compare_range y z) as [Hyz|[Hyz|Hyz]]; rewrite ?Hxy, ?Hyz;
    try lia; intros _ _.
  - rewrite (Pre_zero_l x y z Hxy), Hyz. lia.
  - rewrite (Pre_zero_l x y z Hxy), Hyz. lia.
  - rewrite <- (Pre_zero_r x y z Hyz), Hxy. lia.
  - rewrite (Pre_less_trans x y z Hxy Hyz). lia.
Qed.

Lemma cmpN_le a b : (semver.cmpN a b <= 0)%Z <-> (a <= b)%N.
Proof.
  unfold semver.cmpN. destruct (N.eqb_spec a b); [lia|].
  destruct (N.ltb_spec b a); lia.
Qed.

Lemma Compare_le_trans a b c :
  (semver.Compare a b <= 0)%Z -> (semver.Compare b c <= 0)%Z ->
  (semver.Compare a c <= 0)%Z.
Proof.
  destruct a as [a1 a2 a3 ap ab], b as [b1 b2 b3 bp bb], c as [c1 c2 c3 cp cb].
  unfold semver.Compare. simpl.
  repeat match goal with
         | |- context [N.eqb ?x ?y] => destruct (N.eqb_spec x y); simpl; subst
         end;
    rewrite ?cmpN_le; try lia.
  destruct ap, bp, cp; cbv iota; try lia. apply Pre_le_trans.
Qed.

Lemma LTE_trans a b c :
  semver.LTE a b = true -> semver.LTE b c = true -> semver.LTE a c = true.
Proof.
  unfold semver.LTE. rewrite !Z.leb_le. apply Compare_le_trans.
Qed.

Lemma Compare_refl a : semver.Compare a a = 0%Z.
Proof.
  unfold semver.Compare. rewrite !N.eqb_refl. simpl.
  destruct (semver.Pre a) as [|p l]; [reflexivity|].
  generalize (p :: l). clear. intros l.
  induction l as [|x l IH]; simpl; [reflexivity|].
  assert (H : semver.PRVersion_Compare x x = 0%Z).
  { unfold semver.PRVersion_Compare. destruct (semver.IsNum x); simpl.
    - apply cmpN_zero. reflexivity.
    - rewrite string_compare_refl. reflexivity. }
  rewrite H. exact IH.
Qed.

Section GateOrder.
Variable cv1 cv2 : types_Version.

(** X9: the version gate is monotone in the client's version: where a
    client passes the comparison of [checkVersion], so does any client at
    least as new; and where it passes without the warning, so does the
    newer one. *)
Theorem newer_client_passes server w v1 v2 :
  semver.Parse (Version cv1) = Some v1 ->
  semver.Parse (Version cv2) = Some v2 ->
  semver.LTE v1 v2 = true ->
  (aborts (checkVersion_compare cv1 server w) = false ->
   aborts (checkVersion_compare cv2 server w) = false)
  /\ (checkVersion_compare cv1 server w = Return tt w ->
      checkVersion_compare cv2 server w = Return tt w).
Proof.
  intros H1 H2 Hle.
  unfold checkVersion_compare, MustParse. unfold_prims. rewrite H1, H2. simpl.
  destruct (semver.Parse (GrindVersionRequired server)) as [r|]; simpl; [|split; discriminate].
  destruct (semver.Parse (GrindVersionRecommended server)) as [m|]; simpl.
  - rewrite !GT_LTE.
    destruct (semver.LTE r v1) eqn:Hr; simpl; [|split; discriminate].
    rewrite (LTE_trans _ _ _ Hr Hle). simpl.
    split.
    + intros _. destruct (semver.LTE m v2); reflexivity.
    + destruct (semver.LTE m v1) eqn:Hm; simpl.
      * intros _. rewrite (LTE_trans _ _ _ Hm Hle). reflexivity.
      * intros H. inversion H as [Hw].
        exfalso. apply (f_equal (fun x => List.length (log x))) in Hw. simpl in Hw. lia.
  - rewrite !GT_LTE.
    destruct (semver.LTE r v1) eqn:Hr; simpl; split; discriminate.
Qed.
End GateOrder.

(** X10: the comparison is strict: a server that requires and recommends
    exactly the client's version lets it through, with nothing logged. *)
Theorem equal_version_passes cv server w v :
  semver.Parse (Version cv) = Some v ->
  GrindVersionRequired server = Version cv ->
  GrindVersionRecommended server = Version cv ->
  checkVersion_compare cv server w = Return tt w.
Proof.
  intros Hv Hr Hm.
  unfold checkVersion_compare, MustParse. unfold_prims.
  rewrite Hr, Hm, Hv. simpl.
  unfold semver.GT. rewrite Compare_refl. reflexivity.
Qed.

(** ** The claims on examples *)

Import Sample.

(** Against C1 as stated: a 201 is fatal although it is in the 2xx range,
    and a 200 without a download target returns [false] although the status
    is not 404 and nothing is tolerated. *)
Lemma only_200_succeeds :
  aborts (request (U := Empty_set) (codecD := User_codec)
            "/problems/42" ∅ "GET" None (Some User_zero) true
            (ready (always 201 "201 Created" "{}"))) = true
  /\ request (U := Empty_set) (D := User) (codecD := User_codec)
       "/problems/42" ∅ "GET" None None false
       (ready (always 200 "200 OK" "{}"))
     = Return (false, None)
         (with_sent (get defaultHost "codegrinder=abc" "/problems/42" :: nil)
            (ready (always 200 "200 OK" "{}"))).
Proof. split; vm_compute; reflexivity. Qed.

(** C3, where the code fails it: with a home directory but no config file,
    [grind init] stops at once in [mustLoadConfig], with the message that
    tells the user to run [grind init]. *)
Theorem init_needs_config :
  init (cmd "false" "false")
    (start home ∅ (service "2.0.0" "2.0.0") (pasted "codegrinder=abc"))
  = Fatal (with_log
      (("Unable to load config file; try running " ++ str1 dquote
        ++ "grind init" ++ str1 dquote) :: nil)
      (start home ∅ (service "2.0.0" "2.0.0") (pasted "codegrinder=abc"))).
Proof. vm_compute. reflexivity. Qed.

(** C9, where the code fails it: with a config file in place and a pasted
    token that is no cookie, [grind init] aborts on the prefix check, but
    the version request of [mustLoadConfig] has gone out before the token
    was read. *)
Theorem bad_cookie_after_request :
  let w := start home (rc defaultHost "codegrinder=old")
             (service "2.0.0" "2.0.0") (pasted "wrong") in
  exists w',
    init (cmd "false" "false") w = Fatal w'
    /\ log w' = "the cookie must start with codegrinder=; perhaps you copied the wrong thing?" :: nil
    /\ sent w' = get defaultHost "codegrinder=old" "/version" :: nil
    /\ stdin w' = nil.
Proof. eexists. split; [vm_compute; reflexivity|]. repeat split; vm_compute; reflexivity. Qed.

(** [doRequest_status] on a tolerated 404. *)
Lemma doRequest_status_witness :
  let w := ready (always 404 "404 Not Found" "not found") in
  let req := get defaultHost "codegrinder=abc" "/problems/42" in
  doRequest_build url_ok QueryEncode "/problems/42" ∅ "GET" (@None Empty_set) w
    = Return req w
  /\ server w (sent w) req = respond 404 "404 Not Found" "not found"
  /\ request (U := Empty_set) (codecD := User_codec)
       "/problems/42" ∅ "GET" None (Some User_zero) true w
     = Return (false, Some User_zero) (with_sent (req :: nil) w).
Proof.
  intros w req.
  assert (Hb : doRequest_build url_ok QueryEncode "/problems/42" ∅ "GET"
                 (@None Empty_set) w = Return req w) by reflexivity.
  assert (Hs : server w (sent w) req
               = Some {| StatusCode := 404; Status := "404 Not Found";
                         Body := "not found" |}) by reflexivity.
  split; [exact Hb|]. split; [exact Hs|].
  destruct (doRequest_status url_ok QueryEncode (codecD := User_codec)
              "/problems/42" ∅ "GET" None (Some User_zero) true w req w _ Hb Hs)
    as [H _].
  apply H. reflexivity.
Defined.

(** [doRequest_contract_checks] on a good and on a bad path. *)
Lemma doRequest_contract_checks_witness :
  let w := ready (service "2.0.0" "2.0.0") in
  (HasPrefix "/version" "/" = true
   /\ In "GET" ("GET" :: "POST" :: "PUT" :: "DELETE" :: nil)
   /\ forall w', request (U := Empty_set) (codecD := Version_codec)
                   "/version" ∅ "GET" None (Some Version_zero) false w <> Panic w')
  /\ (HasPrefix "version" "/" = false
      /\ exists msg, request (U := Empty_set) (codecD := Version_codec)
                       "version" ∅ "GET" None (Some Version_zero) false w
                     = Panic (with_log (msg :: log w) w)).
Proof.
  intros w. split.
  - split; [reflexivity|]. split; [simpl; auto|].
    apply (proj1 (doRequest_contract_checks url_ok QueryEncode (codecD := Version_codec)
                    "/version" ∅ "GET" None (Some Version_zero) false w)).
    + reflexivity.
    + simpl; auto.
  - split; [reflexivity|].
    apply (proj2 (doRequest_contract_checks url_ok QueryEncode (codecD := Version_codec)
                    "version" ∅ "GET" None (Some Version_zero) false w)).
    left. reflexivity.
Defined.

(** Against C7 as stated: the same request to the same server returns
    [true] without the dump flag and is fatal with it, when the downloaded
    object cannot be encoded. *)
Lemma dump_flag_can_abort :
  let w := ready (always 200 "200 OK" "{}") in
  request (U := Empty_set) (codecD := Chan_codec)
    "/problems/42" ∅ "GET" None (Some {| pending := 0 |}) false (with_flags false false w)
  = Return (true, Some {| pending := 0 |})
      (with_sent (get defaultHost "codegrinder=abc" "/problems/42" :: nil)
         (with_flags false false w))
  /\ aborts (request (U := Empty_set) (codecD := Chan_codec)
               "/problems/42" ∅ "GET" None (Some {| pending := 0 |}) false
               (with_flags false true w)) = true.
Proof. split; vm_compute; reflexivity. Qed.

(** [flags_only_log] on two runs that differ in the report flag. *)
Lemma flags_only_log_witness :
  let w := ready (service "2.0.0" "2.0.0") in
  (true = true \/ forall x : User, @MarshalIndent User User_codec x <> None)
  /\ same_course
       (request (U := Empty_set) (codecD := User_codec)
          "/users/me" ∅ "GET" None (Some User_zero) false (with_flags false true w))
       (request (U := Empty_set) (codecD := User_codec)
          "/users/me" ∅ "GET" None (Some User_zero) false (with_flags true true w)).
Proof.
  intros w. split; [left; reflexivity|].
  apply (flags_only_log url_ok QueryEncode (codecD := User_codec)).
  left. reflexivity.
Defined.

(** Against C8 as stated: a GET with an upload does not abort; it returns
    as any GET. *)
Lemma upload_with_GET_returns :
  request (codecU := Version_codec) (codecD := User_codec)
    "/users/me" ∅ "GET" (Some CurrentVersion) (Some User_zero) false
    (ready (service "2.0.0" "2.0.0"))
  = Return (true, Some {| Name := "Ada" |})
      (with_sent (get defaultHost "codegrinder=abc" "/users/me" :: nil)
         (ready (service "2.0.0" "2.0.0"))).
Proof. vm_compute. reflexivity. Qed.

(** [upload_ignored_without_body] on a DELETE. *)
Lemma upload_ignored_without_body_witness :
  let w := ready (service "2.0.0" "2.0.0") in
  carries_body "DELETE" = false
  /\ request (codecU := Version_codec) (codecD := User_codec)
       "/users/me" ∅ "DELETE" (Some CurrentVersion) (Some User_zero) false w
     = request (codecU := Version_codec) (codecD := User_codec)
         "/users/me" ∅ "DELETE" None (Some User_zero) false w.
Proof.
  intros w. split; [reflexivity|].
  apply (upload_ignored_without_body url_ok QueryEncode (codecU := Version_codec)
           (codecD := User_codec)).
  reflexivity.
Defined.

(** [checkVersion_gate] on client 2.1.0, required 2.0.0 and recommended
    2.2.0: the warning, and the call returns. *)
Lemma checkVersion_gate_witness :
  let w := ready (service "2.0.0" "2.2.0") in
  let descriptor := {| Version := "2.1.0"; GrindVersionRequired := "2.0.0";
                       GrindVersionRecommended := "2.2.0" |} in
  let w1 := with_sent (get defaultHost "codegrinder=abc" "/version" :: nil) w in
  let v a b c := {| semver.Major := a; semver.Minor := b; semver.Patch := c;
                    semver.Pre := nil; semver.Build := nil |} in
  mustGetObject url_ok QueryEncode (H := Version_codec) "/version" ∅ (Some Version_zero) w
    = Return (Some descriptor) w1
  /\ semver.Parse (Version CurrentVersion) = Some (v 2 1 0)%N
  /\ semver.Parse (GrindVersionRequired descriptor) = Some (v 2 0 0)%N
  /\ semver.Parse (GrindVersionRecommended descriptor) = Some (v 2 2 0)%N
  /\ semver.GT (v 2 0 0)%N (v 2 1 0)%N = false
  /\ semver.GT (v 2 2 0)%N (v 2 1 0)%N = true
  /\ gate w
     = Return tt (with_log
         ("  please upgrade as soon as possible"
          :: "this is grind version 2.1.0, but the server recommends 2.2.0 or higher"
          :: nil) w1).
Proof.
  intros w descriptor w1 v.
  assert (Hget : mustGetObject url_ok QueryEncode (H := Version_codec) "/version" ∅
                   (Some Version_zero) w = Return (Some descriptor) w1)
    by (vm_compute; reflexivity).
  assert (Hc : semver.Parse (Version CurrentVersion) = Some (v 2 1 0)%N) by reflexivity.
  assert (Hr : semver.Parse (GrindVersionRequired descriptor) = Some (v 2 0 0)%N)
    by reflexivity.
  assert (Hm : semver.Parse (GrindVersionRecommended descriptor) = Some (v 2 2 0)%N)
    by reflexivity.
  repeat (split; [first [assumption | reflexivity]|]).
  destruct (checkVersion_gate url_ok QueryEncode CurrentVersion
              (Version_codec := Version_codec) w descriptor w1 _ _ _ Hget Hc Hr Hm) as (_ & H & _).
  apply H; reflexivity.
Defined.

(** [init_saves_after_verification] on a run that reaches the write. *)
Lemma init_saves_after_verification_witness :
  let w := start home (rc defaultHost "codegrinder=old")
             (service "2.0.0" "2.0.0") (pasted "codegrinder=abc") in
  let w1 := final_world (init_verify (cmd "false" "false") w) in
  init_verify (cmd "false" "false") w = Return (Some {| Name := "Ada" |}) w1
  /\ init (cmd "false" "false") w
     = CommandInit_save Join User User_zero Name (Some {| Name := "Ada" |}) w1
  /\ files w1 = files w.
Proof.
  intros w w1.
  assert (Hv : init_verify (cmd "false" "false") w = Return (Some {| Name := "Ada" |}) w1)
    by (vm_compute; reflexivity).
  split; [exact Hv|].
  destruct (init_saves_after_verification url_ok QueryEncode Join CookieName
              CurrentVersion (Version_codec := Version_codec) User User_zero Name
              (User_codec := User_codec) (cmd "false" "false") w) as [_ H].
  destruct (H _ _ Hv) as (Hrun & Hf & _).
  split; [exact Hrun | exact Hf].
Defined.

(** [config_round_trip] on a config saved and loaded with [--api-dump]. *)
Lemma config_round_trip_witness :
  let w := ready (service "2.0.0" "2.0.0") in
  let file := "/home/ada/.codegrinderrc" in
  let saved := with_files (rc defaultHost "codegrinder=abc") w in
  well_formed (Config w)
  /\ configFile Join w = Return file w
  /\ write_denied w file = false
  /\ Flags (cmd "false" "true") !! "api" = Some "false"
  /\ Flags (cmd "false" "true") !! "api-dump" = Some "true"
  /\ mustWriteConfig Join w = Return tt saved
  /\ load (cmd "false" "true") (start home (files saved) (service "2.0.0" "2.0.0") nil)
     = gate (with_Config {| Host := defaultHost; Cookie := "codegrinder=abc";
                            apiReport := true; apiDump := true |}
               (start home (files saved) (service "2.0.0" "2.0.0") nil)).
Proof.
  intros w file saved.
  assert (Hwf : well_formed (Config w)) by (split; reflexivity).
  assert (Hfile : configFile Join w = Return file w) by reflexivity.
  assert (Hw : write_denied w file = false) by reflexivity.
  assert (Ha : Flags (cmd "false" "true") !! "api" = Some "false") by reflexivity.
  assert (Hd : Flags (cmd "false" "true") !! "api-dump" = Some "true") by reflexivity.
  repeat (split; [assumption|]).
  destruct (config_round_trip url_ok QueryEncode Join CurrentVersion
              (Version_codec := Version_codec) (cmd "false" "true") "false" "true" w file Hwf Hfile Hw Ha Hd)
    as [Hsave Hload].
  split; [exact Hsave|].
  destruct (Hload (start home (files saved) (service "2.0.0" "2.0.0") nil)
              eq_refl eq_refl eq_refl) as [H _].
  exact H.
Defined.

(** [dump_implies_report] on a load with [--api-dump]. *)
Lemma dump_implies_report_witness :
  let w := start home (rc defaultHost "codegrinder=abc") (service "2.0.0" "2.0.0") nil in
  let w' := final_world (load (cmd "false" "true") w) in
  flags_ok (Config w)
  /\ load (cmd "false" "true") w = Return tt w'
  /\ apiDump (Config w') = true
  /\ flags_ok (Config w').
Proof.
  intros w w'.
  assert (H0 : flags_ok (Config w)) by (intros H; discriminate H).
  assert (Hrun : load (cmd "false" "true") w = Return tt w') by (vm_compute; reflexivity).
  split; [exact H0|]. split; [exact Hrun|]. split; [vm_compute; reflexivity|].
  exact (dump_implies_report url_ok QueryEncode Join CurrentVersion
           (Version_codec := Version_codec) (cmd "false" "true") w w' H0 Hrun).
Defined.

(** ** The further properties on examples *)

(** [request_shape] on a POST of a user record. *)
Lemma request_shape_witness :
  let w := ready (always 200 "200 OK" "{}") in
  let payload := Json.MarshalIndent_struct (("name", "Ada") :: nil) in
  let req :=
    {| Method := "POST"; URL := "https://dorking.cs.dixie.edu/v2/users/me";
       Query := ∅;
       Header := <["Content-Type" := "application/json" :: nil]>
                   (<["Cookie" := "codegrinder=abc" :: nil]>
                      (<["Accept" := "application/json" :: nil]> ∅));
       ReqBody := Some payload |} in
  doRequest_build url_ok QueryEncode (H := User_codec) "/users/me" ∅ "POST"
    (Some {| Name := "Ada" |}) w = Return req w
  /\ Header req !! "Content-Type" = Some ("application/json" :: nil)
  /\ ReqBody req = @MarshalIndent User User_codec {| Name := "Ada" |}.
Proof.
  intros w payload req.
  assert (H : doRequest_build url_ok QueryEncode (H := User_codec) "/users/me" ∅ "POST"
                (Some {| Name := "Ada" |}) w = Return req w)
    by (vm_compute; reflexivity).
  split; [exact H|].
  destruct (request_shape url_ok QueryEncode (codecU := User_codec) _ _ _ _ _ _ _ H)
    as (_ & _ & _ & _ & _ & _ & _ & Hc & Hb).
  split; [exact Hc | exact Hb].
Defined.

(** [doRequest_log] on a GET answered 200, and on one answered 500. *)
Lemma doRequest_log_witness :
  let w := ready (always 200 "200 OK" "{}") in
  let run := request (U := Empty_set) (codecD := User_codec)
               "/users/me" ∅ "GET" None (Some User_zero) false w in
  let bad := request (U := Empty_set) (codecD := User_codec)
               "/users/me" ∅ "GET" None (Some User_zero) false
               (ready (always 500 "500 Internal Server Error" "oops")) in
  run = Return (true, Some {| Name := EmptyString |}) (final_world run)
  /\ log (final_world run) = log w
  /\ aborts bad = true
  /\ exists msg rest, log (final_world bad) = msg :: rest.
Proof.
  intros w run bad.
  assert (H : run = Return (true, Some {| Name := EmptyString |}) (final_world run))
    by (vm_compute; reflexivity).
  split; [exact H|]. split.
  - destruct (doRequest_log url_ok QueryEncode (U := Empty_set) (codecD := User_codec)
                "/users/me" ∅ "GET" None (Some User_zero) false w) as [Hq _].
    exact (Hq eq_refl eq_refl _ _ H).
  - assert (Hab : aborts bad = true) by (vm_compute; reflexivity).
    split; [exact Hab|].
    destruct (doRequest_log url_ok QueryEncode (U := Empty_set) (codecD := User_codec)
                "/users/me" ∅ "GET" None (Some User_zero) false
                (ready (always 500 "500 Internal Server Error" "oops"))) as [_ Hf].
    destruct (Hf Hab) as (msg & rest & Hl & _). exists msg, rest. exact Hl.
Defined.

(** [upload_encoding_failure] on a POST of a value that has no encoding. *)
Lemma upload_encoding_failure_witness :
  let w := ready (always 200 "200 OK" "{}") in
  let run := request (codecU := Chan_codec) (codecD := User_codec)
               "/users/me" ∅ "POST" (Some {| pending := 0 |}) (Some User_zero) false w in
  carries_body "POST" = true
  /\ @MarshalIndent Chan Chan_codec {| pending := 0 |} = None
  /\ aborts run = true /\ sent (final_world run) = nil.
Proof.
  intros w run. split; [reflexivity|]. split; [reflexivity|].
  exact (upload_encoding_failure url_ok QueryEncode (codecU := Chan_codec)
           (codecD := User_codec) "/users/me" ∅ "POST" {| pending := 0 |}
           (Some User_zero) false w eq_refl eq_refl).
Defined.

(** [must_upload_returns] on a POST of a user record, no download. *)
Lemma must_upload_returns_witness :
  let w := ready (always 200 "200 OK" "{}") in
  let w' := final_world (mustPostObject url_ok QueryEncode (H := User_codec)
                           (H0 := User_codec) "/users/me" ∅ (Some {| Name := "Ada" |})
                           None w) in
  mustPostObject url_ok QueryEncode (H := User_codec) (H0 := User_codec)
    "/users/me" ∅ (Some {| Name := "Ada" |}) None w = Return None w'
  /\ exists req,
       sent w' = req :: nil
       /\ ReqBody req = Some (Json.MarshalIndent_struct (("name", "Ada") :: nil)).
Proof.
  intros w w'.
  match goal with |- ?A /\ _ => assert (H : A) by (vm_compute; reflexivity) end.
  split; [exact H|].
  destruct (must_upload_returns url_ok QueryEncode (codecU := User_codec)
              (codecD := User_codec) _ _ _ _ _ _ _ (or_introl H))
    as (payload & req & resp & Hp & Hs & _ & _ & Hb & _).
  exists req. split; [exact Hs|]. rewrite Hb, <- Hp. reflexivity.
Defined.

(** [getObject_or_fatal] on a server that answers 404. *)
Lemma getObject_or_fatal_witness :
  let w := ready (always 404 "404 Not Found" "not found") in
  let w' := final_world (getObject url_ok QueryEncode (H := User_codec)
                           "/problems/42" ∅ (Some User_zero) w) in
  getObject url_ok QueryEncode (H := User_codec) "/problems/42" ∅ (Some User_zero) w
    = Return (false, Some User_zero) w'
  /\ aborts (mustGetObject url_ok QueryEncode (H := User_codec)
               "/problems/42" ∅ (Some User_zero) w) = true
  /\ exists req resp,
       sent w' = req :: sent w
       /\ server w (sent w) req = Some resp
       /\ StatusCode resp = StatusNotFound.
Proof.
  intros w w'.
  match goal with |- ?A /\ _ => assert (H : A) by (vm_compute; reflexivity) end.
  split; [exact H|].
  assert (Hab : aborts (mustGetObject url_ok QueryEncode (H := User_codec)
                          "/problems/42" ∅ (Some User_zero) w) = true)
    by (vm_compute; reflexivity).
  split; [exact Hab|].
  destruct (getObject_or_fatal url_ok QueryEncode (codecD := User_codec)
              "/problems/42" ∅ (Some User_zero) w) as [_ Hq].
  destruct (Hq _ _ _ H Hab) as (_ & _ & Hreq). exact Hreq.
Defined.

(** [checkVersion_returns_compatible] on client 2.1.0, required 2.0.0. *)
Lemma checkVersion_returns_compatible_witness :
  let w := ready (service "2.0.0" "2.2.0") in
  let w' := final_world (gate w) in
  gate w = Return tt w' /\ traffic_only w w'.
Proof.
  intros w w'.
  match goal with |- ?A /\ _ => assert (H : A) by (vm_compute; reflexivity) end.
  split; [exact H|].
  exact (proj1 (checkVersion_returns_compatible url_ok QueryEncode CurrentVersion
                  (Version_codec := Version_codec) _ _ H)).
Defined.

(** [checkVersion_malformed] on a required version of two parts. *)
Lemma checkVersion_malformed_witness :
  let w := ready (service "2.x" "2.0.0") in
  let descriptor := {| Version := "2.1.0"; GrindVersionRequired := "2.x";
                       GrindVersionRecommended := "2.0.0" |} in
  let w1 := with_sent (get defaultHost "codegrinder=abc" "/version" :: nil) w in
  mustGetObject url_ok QueryEncode (H := Version_codec) "/version" ∅ (Some Version_zero) w
    = Return (Some descriptor) w1
  /\ semver.Parse (GrindVersionRequired descriptor) = None
  /\ gate w = Panic w1.
Proof.
  intros w descriptor w1.
  assert (Hget : mustGetObject url_ok QueryEncode (H := Version_codec) "/version" ∅
                   (Some Version_zero) w = Return (Some descriptor) w1)
    by (vm_compute; reflexivity).
  split; [exact Hget|]. split; [reflexivity|].
  destruct (checkVersion_malformed url_ok QueryEncode CurrentVersion
              (Version_codec := Version_codec) w descriptor w1 Hget) as [_ Hq].
  destruct (Hq _ eq_refl) as [Hr _]. exact (Hr eq_refl).
Defined.

(** [newer_client_passes] on clients 2.1.0 and 2.2.0, required 2.0.0 and
    recommended 2.1.0. *)
Lemma newer_client_passes_witness :
  let newer := {| Version := "2.2.0"; GrindVersionRequired := "2.1.0";
                  GrindVersionRecommended := "2.1.0" |} in
  let server := {| Version := "2.1.0"; GrindVersionRequired := "2.0.0";
                   GrindVersionRecommended := "2.1.0" |} in
  let w := ready (service "2.0.0" "2.1.0") in
  let v a b c := {| semver.Major := a; semver.Minor := b; semver.Patch := c;
                    semver.Pre := nil; semver.Build := nil |} in
  semver.Parse (Version CurrentVersion) = Some (v 2 1 0)%N
  /\ semver.Parse (Version newer) = Some (v 2 2 0)%N
  /\ semver.LTE (v 2 1 0)%N (v 2 2 0)%N = true
  /\ checkVersion_compare CurrentVersion server w = Return tt w
  /\ checkVersion_compare newer server w = Return tt w.
Proof.
  intros newer server w v.
  assert (H1 : semver.Parse (Version CurrentVersion) = Some (v 2 1 0)%N) by reflexivity.
  assert (H2 : semver.Parse (Version newer) = Some (v 2 2 0)%N) by reflexivity.
  assert (H3 : semver.LTE (v 2 1 0)%N (v 2 2 0)%N = true) by reflexivity.
  assert (H4 : checkVersion_compare CurrentVersion server w = Return tt w)
    by (vm_compute; reflexivity).
  repeat (split; [assumption|]).
  exact (proj2 (newer_client_passes CurrentVersion newer server w _ _ H1 H2 H3) H4).
Defined.

(** [equal_version_passes] on client 2.1.0. *)
Lemma equal_version_passes_witness :
  let server := {| Version := "2.5.0"; GrindVersionRequired := "2.1.0";
                   GrindVersionRecommended := "2.1.0" |} in
  let w := ready (service "2.1.0" "2.1.0") in
  semver.Parse (Version CurrentVersion)
  = Some {| semver.Major := 2; semver.Minor := 1; semver.Patch := 0;
            semver.Pre := nil; semver.Build := nil |}
  /\ checkVersion_compare CurrentVersion server w = Return tt w.
Proof.
  intros server w. split; [reflexivity|].
  exact (equal_version_passes CurrentVersion server w _ eq_refl eq_refl eq_refl).
Defined.

(** [mustLoadConfig_returns] on a load with [--api]. *)
Lemma mustLoadConfig_returns_witness :
  let w := start home (rc defaultHost "codegrinder=abc") (service "2.0.0" "2.0.0") nil in
  let w' := final_world (load (cmd "true" "false") w) in
  load (cmd "true" "false") w = Return tt w'
  /\ exists c',
       Unmarshal (Config_MarshalIndent
                    {| Host := defaultHost; Cookie := "codegrinder=abc";
                       apiReport := false; apiDump := false |} ++ str1 newline)
         (Config w) = Some c'
       /\ Config w' = merge_flags (Config w) c' "true" "false"
       /\ files w' = files w.
Proof.
  intros w w'.
  match goal with |- ?A /\ _ => assert (H : A) by (vm_compute; reflexivity) end.
  split; [exact H|].
  destruct (mustLoadConfig_returns url_ok QueryEncode Join CurrentVersion
              (Version_codec := Version_codec) _ _ _ H)
    as (file & raw & c' & api & dump & Hf & Hraw & Hu & Ha & Hd & HC & Hfiles & _).
  injection Hf as <-. injection Hraw as <-. injection Ha as <-. injection Hd as <-.
  exists c'. split; [exact Hu|]. split; [exact HC | exact Hfiles].
Defined.

(** [mustLoadConfig_gated] on a load that passes the gate. *)
Lemma mustLoadConfig_gated_witness :
  let w := start home (rc defaultHost "codegrinder=abc") (service "2.0.0" "2.0.0") nil in
  let w' := final_world (load (cmd "false" "false") w) in
  load (cmd "false" "false") w = Return tt w'
  /\ exists req, sent w' = req :: sent w /\ is_get (Config w') "/version" req.
Proof.
  intros w w'.
  match goal with |- ?A /\ _ => assert (H : A) by (vm_compute; reflexivity) end.
  split; [exact H|].
  destruct (mustLoadConfig_gated url_ok QueryEncode Join CurrentVersion
              (Version_codec := Version_codec) _ _ _ H)
    as (req & resp & d & c & r & Hs & Hg & _).
  exists req. split; [exact Hs | exact Hg].
Defined.

(** [config_file_tail] on a saved config with a brace too many. *)
Lemma config_file_tail_witness :
  let c := {| Host := defaultHost; Cookie := "codegrinder=abc";
              apiReport := false; apiDump := false |} in
  let file := "/home/ada/.codegrinderrc" in
  let w := start home (<[file := Config_MarshalIndent c ++ "}"]> ∅)
             (service "2.0.0" "2.0.0") nil in
  well_formed c
  /\ configFile Join w = Return file w
  /\ files w !! file = Some (Config_MarshalIndent c ++ "}")
  /\ Json.skip_space "}" <> EmptyString
  /\ aborts (load (cmd "false" "false") w) = true
  /\ sent (final_world (load (cmd "false" "false") w)) = nil.
Proof.
  intros c file w.
  assert (Hwf : well_formed c) by (split; reflexivity).
  assert (Hfile : configFile Join w = Return file w) by reflexivity.
  assert (Hraw : files w !! file = Some (Config_MarshalIndent c ++ "}")) by reflexivity.
  assert (Ht : Json.skip_space "}" <> EmptyString) by discriminate.
  repeat (split; [assumption|]).
  destruct (config_file_tail url_ok QueryEncode Join CurrentVersion
              (Version_codec := Version_codec) (cmd "false" "false") w file c "}"
              Hwf Hfile Hraw) as [Hq _].
  unfold load. rewrite (Hq Ht). split; reflexivity.
Defined.


(** [CommandInit_saved] on a run that replaces the cookie. *)
Lemma CommandInit_saved_witness :
  let w := start home (rc defaultHost "codegrinder=old")
             (service "2.0.0" "2.0.0") (pasted "codegrinder=abc") in
  let w' := final_world (init (cmd "false" "false") w) in
  init (cmd "false" "false") w = Return tt w'
  /\ files w'
     = <["/home/ada/.codegrinderrc" := Config_MarshalIndent (Config w') ++ str1 newline]>
         (files w)
  /\ Cookie (Config w') = "codegrinder=abc".
Proof.
  intros w w'.
  match goal with |- ?A /\ _ => assert (H : A) by (vm_compute; reflexivity) end.
  split; [exact H|].
  destruct (CommandInit_saved url_ok QueryEncode Join CookieName CurrentVersion
              (Version_codec := Version_codec) User User_zero Name
              (User_codec := User_codec) _ _ _ H)
    as (file & Hf & Hfiles & _).
  injection Hf as <-. split; [exact Hfiles | reflexivity].
Defined.



(** [mustLoadConfig_frame] on a process that has [apiReport] on. *)
Lemma mustLoadConfig_frame_witness :
  let w := with_flags true false
             (start home (rc defaultHost "codegrinder=abc") (service "2.0.0" "2.0.0") nil) in
  let w' := final_world (load (cmd "false" "false") w) in
  apiReport (Config w) = true
  /\ apiReport (Config w') = true
  /\ files w' = files w.
Proof.
  intros w w'.
  destruct (mustLoadConfig_frame url_ok QueryEncode Join CurrentVersion
              (Version_codec := Version_codec) (cmd "false" "false") w)
    as (_ & Hf & _ & _ & _ & Hr & _).
  split; [reflexivity|]. split; [exact (Hr eq_refl) | exact Hf].
Defined.
